(** * AuthContext: the authentication store of the client

    A shallow embedding of [client/src/contexts/AuthContext.js]: the reducer
    [authReducer] with the [localStorage] slot it mirrors the token to, the
    asynchronous actions ([login], [register], [loadUser], [logout],
    [updateProfile], [changePassword]), the two effects on [state.token],
    and the two queries [hasRole] and [canAccess]. *)

From stdpp Require Import base option list strings gmap.

Open Scope string_scope.

(** ** JavaScript values

    The values the store handles: [undefined], [null], booleans, strings and
    plain objects (the JSON records exchanged with the auth API).  An object
    carries the reference that [===] compares and its own properties, most
    recent definition first.  Numbers (floating point), arrays and functions
    are left out of the universe; a statement that depends on ToString of a
    value names the values it covers. *)

#[local] Set Warnings "-register-all".

Inductive value : Type :=
| VUndefined
| VNull
| VBool (b : bool)
| VStr (s : string)
| VObj (ref : nat) (props : list (string * value)).

(** What an evaluation can throw: the [TypeError] of a property read on
    [undefined] or [null], or the value a promise was rejected with. *)
Inductive exn : Type :=
| TypeError
| Rejection (reason : value).

(** Result of evaluating an expression that may throw. *)
Inductive completion (A : Type) : Type :=
| Normal (a : A)
| Throw (e : exn).
Arguments Normal {A} a.
Arguments Throw {A} e.

#[global] Instance completion_ret : MRet completion := @Normal.
#[global] Instance completion_bind : MBind completion :=
  λ A B f m, match m with Normal a => f a | Throw e => Throw e end.

(** [v == null]: the two values without properties. *)
Definition nullish (v : value) : bool :=
  match v with
  | VUndefined | VNull => true
  | _ => false
  end.

(** ToBoolean. *)
Definition to_boolean (v : value) : bool :=
  match v with
  | VUndefined | VNull => false
  | VBool b => b
  | VStr s => negb (String.eqb s "")
  | VObj _ _ => true
  end.

(** [a === b]; objects are compared by reference.  On this universe it is
    also the SameValueZero comparison of [Array.prototype.includes]. *)
Definition strict_equals (a b : value) : bool :=
  match a, b with
  | VUndefined, VUndefined => true
  | VNull, VNull => true
  | VBool x, VBool y => Bool.eqb x y
  | VStr x, VStr y => String.eqb x y
  | VObj r _, VObj r' _ => Nat.eqb r r'
  | _, _ => false
  end.

Fixpoint own_property (k : string) (props : list (string * value)) : option value :=
  match props with
  | [] => None
  | (k', v) :: rest => if String.eqb k' k then Some v else own_property k rest
  end.

(** ToString, as [localStorage.setItem] and a template literal apply it.  On
    an object it calls the object's [toString]: the inherited one gives
    ["[object Object]"]; an own property [toString] hides it and, holding no
    function (no value of this universe is one), leaves only the inherited
    [valueOf], which returns the object, so the conversion throws a
    [TypeError]. *)
Definition to_string (v : value) : completion string :=
  match v with
  | VUndefined => Normal "undefined"
  | VNull => Normal "null"
  | VBool true => Normal "true"
  | VBool false => Normal "false"
  | VStr s => Normal s
  | VObj _ props =>
      match own_property "toString" props with
      | Some _ => Throw TypeError
      | None => Normal "[object Object]"
      end
  end.

(** [v.k] for the property names the store reads ([token], [user],
    [userType], [response], [data], [message]), none of which a built-in
    prototype defines: a [TypeError] on [undefined] and [null], [undefined]
    on the other primitives and on an object without the property. *)
Definition get (v : value) (k : string) : completion value :=
  match v with
  | VUndefined | VNull => Throw TypeError
  | VBool _ | VStr _ => Normal VUndefined
  | VObj _ props => Normal (default VUndefined (own_property k props))
  end.

(** [v?.k] *)
Definition get_opt (v : value) (k : string) : completion value :=
  if nullish v then Normal VUndefined else get v k.

(** [a || b] on values already evaluated. *)
Definition or_else (a b : value) : value :=
  if to_boolean a then a else b.

(** [allowedRoles.includes(x)] on the elements of the array. *)
Definition includes (xs : list value) (x : value) : bool :=
  existsb (λ y, strict_equals y x) xs.

(** ** Durable storage

    [localStorage]: string keys, string values. *)
Abbreviation Storage := (gmap string string).

Definition getItem (k : string) (ls : Storage) : value :=
  match ls !! k with
  | Some s => VStr s
  | None => VNull
  end.

Definition setItem (k : string) (v : value) (ls : Storage) : completion Storage :=
  s ← to_string v;
  mret (<[k := s]> ls).

Definition removeItem (k : string) (ls : Storage) : Storage :=
  delete k ls.

(** ** State, actions and the reducer *)

Record AuthState : Type := mkAuthState {
  user : value;
  token : value;
  isAuthenticated : value;
  loading : value;
  error : value
}.

Definition initialState (ls : Storage) : AuthState :=
  {| user := VNull;
     token := getItem "token" ls;
     isAuthenticated := VBool false;
     loading := VBool true;
     error := VNull |}.

Module AUTH_ACTIONS.
Definition LOGIN_SUCCESS : string := "LOGIN_SUCCESS".
Definition LOGIN_FAIL : string := "LOGIN_FAIL".
Definition REGISTER_SUCCESS : string := "REGISTER_SUCCESS".
Definition REGISTER_FAIL : string := "REGISTER_FAIL".
Definition LOGOUT : string := "LOGOUT".
Definition USER_LOADED : string := "USER_LOADED".
Definition AUTH_ERROR : string := "AUTH_ERROR".
Definition CLEAR_ERRORS : string := "CLEAR_ERRORS".
Definition SET_LOADING : string := "SET_LOADING".

Definition all : list string :=
    [LOGIN_SUCCESS; LOGIN_FAIL; REGISTER_SUCCESS; REGISTER_FAIL; LOGOUT;
     USER_LOADED; AUTH_ERROR; CLEAR_ERRORS; SET_LOADING].
End AUTH_ACTIONS.

(** An action object [{type, payload}]; a literal without [payload] has
    [payload = VUndefined]. *)
Record Action : Type := mkAction {
  type : value;
  payload : value
}.

(** One [case] label of the [switch]: strict equality with the constant. *)
Definition is_case (a : Action) (label : string) : bool :=
  strict_equals (type a) (VStr label).

(** The reducer, with the storage it reads and writes passed along.  In the
    first case [action.payload.token] is evaluated before [setItem] is
    called, and [setItem] converts it before it writes, so a throw leaves
    the storage as it was. *)
Definition authReducer (state : AuthState) (action : Action) (ls : Storage)
  : completion (AuthState * Storage) :=
  if is_case action AUTH_ACTIONS.LOGIN_SUCCESS
     || is_case action AUTH_ACTIONS.REGISTER_SUCCESS then
    t ← get (payload action) "token";
    ls' ← setItem "token" t ls;
    t' ← get (payload action) "token";
    u ← get (payload action) "user";
    mret ({| user := u;
             token := t';
             isAuthenticated := VBool true;
             loading := VBool false;
             error := VNull |}, ls')
  else if is_case action AUTH_ACTIONS.USER_LOADED then
    mret ({| user := payload action;
             token := token state;
             isAuthenticated := VBool true;
             loading := VBool false;
             error := error state |}, ls)
  else if is_case action AUTH_ACTIONS.LOGIN_FAIL
          || is_case action AUTH_ACTIONS.REGISTER_FAIL
          || is_case action AUTH_ACTIONS.AUTH_ERROR then
    let ls' := removeItem "token" ls in
    mret ({| user := VNull;
             token := VNull;
             isAuthenticated := VBool false;
             loading := VBool false;
             error := payload action |}, ls')
  else if is_case action AUTH_ACTIONS.LOGOUT then
    let ls' := removeItem "token" ls in
    mret ({| user := VNull;
             token := VNull;
             isAuthenticated := VBool false;
             loading := VBool false;
             error := VNull |}, ls')
  else if is_case action AUTH_ACTIONS.CLEAR_ERRORS then
    mret ({| user := user state;
             token := token state;
             isAuthenticated := isAuthenticated state;
             loading := loading state;
             error := VNull |}, ls)
  else if is_case action AUTH_ACTIONS.SET_LOADING then
    mret ({| user := user state;
             token := token state;
             isAuthenticated := isAuthenticated state;
             loading := payload action;
             error := error state |}, ls)
  else
    mret (state, ls).

(** The state after a sequence of dispatched actions, reduced in order. *)
Fixpoint reduceAll (actions : list Action) (state : AuthState) (ls : Storage)
  : completion (AuthState * Storage) :=
  match actions with
  | [] => mret (state, ls)
  | a :: rest =>
      '(state', ls') ← authReducer state a ls;
      reduceAll rest state' ls'
  end.

(** ** Asynchronous actions

    An action is run against the way its HTTP request settles.  What it does
    to the outside (dispatches, the request, notifications) is recorded in
    order; what it returns or throws to its caller is its completion. *)

Inductive settled : Type :=
| Fulfilled (res : value)
| Rejected (reason : value).

Inductive request_data : Type :=
| NoData
| Credentials (email password : value)
| Data (body : value).

Inductive effect : Type :=
| Dispatch (a : Action)
| Request (method url : string) (data : request_data)
| ToastSuccess (message : value)
| ToastError (message : value).

(** The object literals the actions return: [{success: true, user}],
    [{success: true}] and [{success: false, message}]. *)
Inductive ActionResult : Type :=
| SuccessUser (u : value)
| Success
| Failure (message : value).

Record Act (A : Type) : Type := mkAct {
  effects : list effect;
  result : completion A
}.
Arguments mkAct {A} effects result.
Arguments effects {A} a.
Arguments result {A} a.

#[global] Instance Act_ret : MRet Act := λ A a, mkAct [] (Normal a).
#[global] Instance Act_bind : MBind Act :=
  λ A B f m,
    match result m with
    | Normal a => mkAct (effects m ++ effects (f a)) (result (f a))
    | Throw e => mkAct (effects m) (Throw e)
    end.

Definition perform (e : effect) : Act unit := mkAct [e] (Normal tt).

Definition eval {A : Type} (c : completion A) : Act A := mkAct [] c.

(** [try { body } catch (error) { handler }] *)
Definition try_catch {A : Type} (body : Act A) (handler : exn → Act A) : Act A :=
  match result body with
  | Normal a => body
  | Throw e => mkAct (effects body ++ effects (handler e)) (result (handler e))
  end.

(** [await axios.<method>(url, data)] *)
Definition axios (method url : string) (data : request_data) (reply : settled)
  : Act value :=
  perform (Request method url data);;
  match reply with
  | Fulfilled res => mret res
  | Rejected reason => eval (Throw (Rejection reason))
  end.

Definition dispatch (t : string) (p : value) : Act unit :=
  perform (Dispatch {| type := VStr t; payload := p |}).

(** [error.k] on a caught exception: a [TypeError] object has no such
    property; a rejection reason is read like any value. *)
Definition caught_get (error : exn) (k : string) : completion value :=
  match error with
  | TypeError => Normal VUndefined
  | Rejection reason => get reason k
  end.

(** [error.response?.data?.message || fallback] *)
Definition failure_message (error : exn) (fallback : string) : completion value :=
  r ← caught_get error "response";
  d ← get_opt r "data";
  m ← get_opt d "message";
  mret (or_else m (VStr fallback)).

Definition login (email password : value) (reply : settled) : Act ActionResult :=
  try_catch
    (dispatch AUTH_ACTIONS.SET_LOADING (VBool true);;
     res ← axios "POST" "/api/auth/login" (Credentials email password) reply;
     d ← eval (get res "data");
     dispatch AUTH_ACTIONS.LOGIN_SUCCESS d;;
     perform (ToastSuccess (VStr "Login successful!"));;
     d' ← eval (get res "data");
     u ← eval (get d' "user");
     mret (SuccessUser u))
    (λ error,
     message ← eval (failure_message error "Login failed");
     dispatch AUTH_ACTIONS.LOGIN_FAIL message;;
     perform (ToastError message);;
     mret (Failure message)).

Definition loadUser (reply : settled) : Act unit :=
  try_catch
    (res ← axios "GET" "/api/auth/me" NoData reply;
     d ← eval (get res "data");
     u ← eval (get d "user");
     dispatch AUTH_ACTIONS.USER_LOADED u)
    (λ error,
     message ← eval (failure_message error "Authentication failed");
     dispatch AUTH_ACTIONS.AUTH_ERROR message).

Definition logout : Act unit :=
  dispatch AUTH_ACTIONS.LOGOUT VUndefined;;
  perform (ToastSuccess (VStr "Logged out successfully")).

Definition updateProfile (profileData : value) (reply : settled) : Act ActionResult :=
  try_catch
    (res ← axios "PUT" "/api/auth/profile" (Data profileData) reply;
     d ← eval (get res "data");
     u ← eval (get d "user");
     dispatch AUTH_ACTIONS.USER_LOADED u;;
     perform (ToastSuccess (VStr "Profile updated successfully!"));;
     mret Success)
    (λ error,
     message ← eval (failure_message error "Profile update failed");
     perform (ToastError message);;
     mret (Failure message)).

(** The actions an action dispatched, in order. *)
Definition dispatched (es : list effect) : list Action :=
  omap (λ e, match e with Dispatch a => Some a | _ => None end) es.

(** ** Queries *)

(** [state.user && state.user.userType === role] *)
Definition hasRole (state : AuthState) (role : value) : completion value :=
  if to_boolean (user state) then
    ut ← get (user state) "userType";
    mret (VBool (strict_equals ut role))
  else
    mret (user state).

Definition canAccess (state : AuthState) (allowedRoles : list value)
  : completion value :=
  if negb (to_boolean (isAuthenticated state)) then mret (VBool false)
  else
    ut ← get (user state) "userType";
    mret (VBool (includes allowedRoles ut)).

(** An action well formed for the reducer's table: a success event carries
    a payload whose [token] is a string and whose [user] is present,
    [USER_LOADED] carries a user. *)
Definition well_formed (a : Action) : bool :=
  if is_case a AUTH_ACTIONS.LOGIN_SUCCESS
     || is_case a AUTH_ACTIONS.REGISTER_SUCCESS then
    match get (payload a) "token", get (payload a) "user" with
    | Normal (VStr _), Normal u => negb (nullish u)
    | _, _ => false
    end
  else if is_case a AUTH_ACTIONS.USER_LOADED then negb (nullish (payload a))
  else true.

(** The relation between [isAuthenticated] and [user] that the reducer keeps. *)
Definition user_iff_authenticated (s : AuthState) : Prop :=
  (isAuthenticated s = VBool true ∧ nullish (user s) = false)
  ∨ (isAuthenticated s = VBool false ∧ user s = VNull).

(** Sample data used in the examples below. *)
Definition admin : value := VObj 1 [("userType", VStr "admin")].

Definition axios_error (message : string) : value :=
  VObj 2 [("response", VObj 3 [("data", VObj 4 [("message", VStr message)])])].

Definition event (t : string) (p : value) : Action :=
  {| type := VStr t; payload := p |}.

(** A session that fails to log in, logs in, and reloads its user. *)
Definition sample_session : list Action :=
  [event AUTH_ACTIONS.LOGIN_FAIL (VStr "bad creds");
   event AUTH_ACTIONS.LOGIN_SUCCESS (VObj 5 [("token", VStr "t1"); ("user", admin)]);
   event AUTH_ACTIONS.SET_LOADING (VBool true);
   event AUTH_ACTIONS.USER_LOADED admin].

(** The provider starts with a stored token and calls [loadUser]; the user
    logs out before the request resolves. *)
Definition stored_token : Storage := {["token" := "abc"]}.

Definition logout_before_loaded : list Action :=
  [event AUTH_ACTIONS.LOGOUT VUndefined;
   event AUTH_ACTIONS.USER_LOADED admin].

(** A failed login followed by a late [USER_LOADED]. *)
Definition failed_then_loaded : list Action :=
  [event AUTH_ACTIONS.LOGIN_FAIL (VStr "bad creds");
   event AUTH_ACTIONS.USER_LOADED admin].

(** Runs an action as far as its property reads are known. *)
Ltac run_act :=
  unfold login, loadUser, updateProfile, logout, try_catch, axios, dispatch, perform, eval,
    mbind, mret, Act_bind, Act_ret;
  cbn -[failure_message get].

(** ** The rest of the provider *)

Definition register (userData : value) (reply : settled) : Act ActionResult :=
  try_catch
    (dispatch AUTH_ACTIONS.SET_LOADING (VBool true);;
     res ← axios "POST" "/api/auth/register" (Data userData) reply;
     d ← eval (get res "data");
     dispatch AUTH_ACTIONS.REGISTER_SUCCESS d;;
     perform (ToastSuccess (VStr "Registration successful!"));;
     d' ← eval (get res "data");
     u ← eval (get d' "user");
     mret (SuccessUser u))
    (λ error,
     message ← eval (failure_message error "Registration failed");
     dispatch AUTH_ACTIONS.REGISTER_FAIL message;;
     perform (ToastError message);;
     mret (Failure message)).

Definition changePassword (passwordData : value) (reply : settled) : Act ActionResult :=
  try_catch
    (axios "PUT" "/api/auth/password" (Data passwordData) reply;;
     perform (ToastSuccess (VStr "Password changed successfully!"));;
     mret Success)
    (λ error,
     message ← eval (failure_message error "Password change failed");
     perform (ToastError message);;
     mret (Failure message)).

Definition clearErrors : Act unit :=
  dispatch AUTH_ACTIONS.CLEAR_ERRORS VUndefined.

(** [axios.defaults.headers.common] *)
Abbreviation Headers := (gmap string string).

(** The effect on [state.token] that configures the axios defaults: the
    template literal applies ToString to the token, and a throw leaves the
    headers as they were. *)
Definition configureAxiosDefaults (state : AuthState) (headers : Headers)
  : completion Headers :=
  if to_boolean (token state) then
    str ← to_string (token state);
    mret (<["Authorization" := "Bearer " ++ str]> headers)
  else
    mret (delete "Authorization" headers).

(** The effect that loads the user on start and when the token changes;
    [reply] is how the request of [loadUser] settles, if it is made. *)
Definition loadUserOnTokenChange (state : AuthState) (reply : settled) : Act unit :=
  if to_boolean (token state) then loadUser reply
  else dispatch AUTH_ACTIONS.SET_LOADING (VBool false).

(** A success event whose payload carries a string as its token. *)
Definition string_token (a : Action) : bool :=
  if is_case a AUTH_ACTIONS.LOGIN_SUCCESS
     || is_case a AUTH_ACTIONS.REGISTER_SUCCESS then
    match get (payload a) "token" with
    | Normal (VStr _) => true
    | _ => false
    end
  else true.

(** An event outside the seven cases that write [user], [token] or
    [isAuthenticated]. *)
Definition passive (a : Action) : bool :=
  negb (is_case a AUTH_ACTIONS.LOGIN_SUCCESS
        || is_case a AUTH_ACTIONS.REGISTER_SUCCESS
        || is_case a AUTH_ACTIONS.USER_LOADED
        || is_case a AUTH_ACTIONS.LOGIN_FAIL
        || is_case a AUTH_ACTIONS.REGISTER_FAIL
        || is_case a AUTH_ACTIONS.AUTH_ERROR
        || is_case a AUTH_ACTIONS.LOGOUT).

(** An event that leaves [error] as it is: none of the success, failure,
    [LOGOUT] and [CLEAR_ERRORS] cases. *)
Definition keeps_error (a : Action) : bool :=
  negb (is_case a AUTH_ACTIONS.LOGIN_SUCCESS
        || is_case a AUTH_ACTIONS.REGISTER_SUCCESS
        || is_case a AUTH_ACTIONS.LOGIN_FAIL
        || is_case a AUTH_ACTIONS.REGISTER_FAIL
        || is_case a AUTH_ACTIONS.AUTH_ERROR
        || is_case a AUTH_ACTIONS.LOGOUT
        || is_case a AUTH_ACTIONS.CLEAR_ERRORS).

(** More sample data. *)
Definition session_body : value :=
  VObj 5 [("token", VStr "t1"); ("user", admin)].

Definition response (body : value) : value := VObj 6 [("data", body)].

(** A token that ToString rejects. *)
Definition odd_token : value := VObj 10 [("toString", VStr "x")].

Definition other_keys : Storage := {["theme" := "dark"; "token" := "abc"]}.

Ltac run_more :=
  unfold register, changePassword, clearErrors, loadUserOnTokenChange;
  run_act.

(** * Properties *)

(** ** Values *)

Lemma strict_equals_VStr v l : strict_equals v (VStr l) = true ↔ v = VStr l.
Proof.
  destruct v; simpl; try (split; [discriminate | congruence]).
  rewrite String.eqb_eq. split; congruence.
Qed.

Lemma is_case_false a l : type a ≠ VStr l → is_case a l = false.
Proof.
  intros Hne. unfold is_case.
  destruct (strict_equals (type a) (VStr l)) eqn:E; [|done].
  by apply strict_equals_VStr in E.
Qed.

Lemma get_present v k : nullish v = false → ∃ w, get v k = Normal w.
Proof. destruct v; simpl; intros H; try discriminate; eauto. Qed.

Lemma get_throws v k e : get v k = Throw e → nullish v = true.
Proof. destruct v; simpl; intros H; try discriminate; done. Qed.

Lemma get_throws_TypeError v k e : get v k = Throw e → e = TypeError.
Proof. destruct v; simpl; intros H; try discriminate; congruence. Qed.

Lemma get_Normal_present v k w : get v k = Normal w → nullish v = false.
Proof. destruct v; simpl; intros H; try discriminate; done. Qed.

Lemma to_string_throws_TypeError v e : to_string v = Throw e → e = TypeError.
Proof.
  destruct v as [| |[]| |r props]; simpl; try discriminate.
  destruct (own_property "toString" props); [congruence | discriminate].
Qed.

(** ToString throws exactly on an object with an own [toString]. *)
Lemma to_string_throws_iff v :
  to_string v = Throw TypeError
  ↔ ∃ r props w, v = VObj r props ∧ own_property "toString" props = Some w.
Proof.
  split.
  - destruct v as [| |[]| |r props]; simpl; try discriminate.
    destruct (own_property "toString" props) as [w|] eqn:E; [|discriminate].
    intros _. eauto.
  - intros (r & props & w & -> & E). simpl. by rewrite E.
Qed.

Lemma includes_spec xs x :
  includes xs x = true ↔ ∃ y, y ∈ xs ∧ strict_equals y x = true.
Proof.
  unfold includes. rewrite existsb_exists.
  split; intros (y & Hy & E); exists y; split; auto; by apply list_elem_of_In.
Qed.

Lemma getItem_removeItem k ls : getItem k (removeItem k ls) = VNull.
Proof. unfold getItem, removeItem. by rewrite lookup_delete_eq. Qed.

Lemma getItem_insert k str (ls : Storage) : getItem k (<[k := str]> ls) = VStr str.
Proof. unfold getItem. by rewrite lookup_insert_eq. Qed.

(** ** The reducer, case by case *)

Section Cases.
Variables (s : AuthState) (p : value) (ls : Storage).

Lemma authReducer_USER_LOADED :
  authReducer s (event AUTH_ACTIONS.USER_LOADED p) ls
  = Normal ({| user := p; token := token s; isAuthenticated := VBool true;
               loading := VBool false; error := error s |}, ls).
Proof. reflexivity. Qed.

Lemma authReducer_fail t :
  t ∈ [AUTH_ACTIONS.LOGIN_FAIL; AUTH_ACTIONS.REGISTER_FAIL; AUTH_ACTIONS.AUTH_ERROR] →
  authReducer s (event t p) ls
  = Normal ({| user := VNull; token := VNull; isAuthenticated := VBool false;
               loading := VBool false; error := p |}, removeItem "token" ls).
Proof.
  rewrite !elem_of_cons, elem_of_nil.
  intros [-> | [-> | [-> | []]]]; reflexivity.
Qed.

Lemma authReducer_LOGOUT :
  authReducer s (event AUTH_ACTIONS.LOGOUT p) ls
  = Normal ({| user := VNull; token := VNull; isAuthenticated := VBool false;
               loading := VBool false; error := VNull |}, removeItem "token" ls).
Proof. reflexivity. Qed.

Lemma authReducer_success t tok str u :
  t ∈ [AUTH_ACTIONS.LOGIN_SUCCESS; AUTH_ACTIONS.REGISTER_SUCCESS] →
  get p "token" = Normal tok →
  to_string tok = Normal str →
  get p "user" = Normal u →
  authReducer s (event t p) ls
  = Normal ({| user := u; token := tok; isAuthenticated := VBool true;
               loading := VBool false; error := VNull |}, <["token" := str]> ls).
Proof.
  rewrite !elem_of_cons, elem_of_nil.
  intros [-> | [-> | []]] Htok Hstr Hu; unfold authReducer, setItem; simpl;
    rewrite Htok; simpl; rewrite Hstr; simpl; rewrite Hu; reflexivity.
Qed.

(** A token that ToString rejects: the reducer throws in [setItem]. *)
Lemma authReducer_success_throws t tok :
  t ∈ [AUTH_ACTIONS.LOGIN_SUCCESS; AUTH_ACTIONS.REGISTER_SUCCESS] →
  get p "token" = Normal tok →
  to_string tok = Throw TypeError →
  authReducer s (event t p) ls = Throw TypeError.
Proof.
  rewrite !elem_of_cons, elem_of_nil.
  intros [-> | [-> | []]] Htok Hstr; unfold authReducer, setItem; simpl;
    rewrite Htok; simpl; rewrite Hstr; reflexivity.
Qed.
End Cases.

(** The reducer returns on every action except a success event whose payload
    is [null] or [undefined], where reading [payload.token] throws, or whose
    token ToString rejects, where [setItem] throws. *)
Lemma authReducer_returns s a ls :
  nullish (payload a) = false →
  (∀ tok, get (payload a) "token" = Normal tok → ∃ str, to_string tok = Normal str) →
  ∃ s' ls', authReducer s a ls = Normal (s', ls').
Proof.
  intros Hp Hstr. unfold authReducer, setItem.
  destruct (get_present (payload a) "token" Hp) as [t Ht].
  destruct (Hstr t Ht) as [str Es]. rewrite Ht.
  destruct (get_present (payload a) "user" Hp) as [u ->].
  repeat (match goal with |- context [if ?b then _ else _] => destruct b end);
    simpl; rewrite ?Es; simpl; eauto.
Qed.

Remark authReducer_LOGIN_SUCCESS_null s ls :
  authReducer s (event AUTH_ACTIONS.LOGIN_SUCCESS VNull) ls = Throw TypeError.
Proof. reflexivity. Qed.

Remark authReducer_LOGIN_SUCCESS_odd_token s ls :
  authReducer s
    (event AUTH_ACTIONS.LOGIN_SUCCESS (VObj 5 [("token", odd_token); ("user", admin)])) ls
  = Throw TypeError.
Proof. reflexivity. Qed.

Example authReducer_LOGIN_SUCCESS_t1 s ls :
  authReducer s
    (event AUTH_ACTIONS.LOGIN_SUCCESS (VObj 5 [("token", VStr "t1"); ("user", admin)])) ls
  = Normal ({| user := admin; token := VStr "t1"; isAuthenticated := VBool true;
               loading := VBool false; error := VNull |}, <["token" := "t1"]> ls).
Proof. reflexivity. Qed.

(** ** The invariant on [isAuthenticated] *)

Lemma initialState_invariant ls : user_iff_authenticated (initialState ls).
Proof. right. done. Qed.

(** One well-formed event never throws and keeps the relation. *)
Lemma authReducer_invariant s a ls :
  user_iff_authenticated s →
  well_formed a = true →
  ∃ s' ls', authReducer s a ls = Normal (s', ls') ∧ user_iff_authenticated s'.
Proof.
  intros Hs Hwf. unfold well_formed in Hwf. unfold authReducer, setItem.
  destruct (is_case a AUTH_ACTIONS.LOGIN_SUCCESS
            || is_case a AUTH_ACTIONS.REGISTER_SUCCESS).
  { destruct (get (payload a) "token") as [[| | |t|]|] eqn:Ht; try discriminate.
    destruct (get (payload a) "user") as [u|e] eqn:Hu; [|discriminate].
    simpl. eexists _, _. split; [reflexivity|].
    left. simpl. split; [done|]. by apply negb_true_iff. }
  destruct (is_case a AUTH_ACTIONS.USER_LOADED).
  { eexists _, _. split; [reflexivity|].
    left. simpl. split; [done|]. by apply negb_true_iff. }
  destruct (is_case a AUTH_ACTIONS.LOGIN_FAIL
            || is_case a AUTH_ACTIONS.REGISTER_FAIL
            || is_case a AUTH_ACTIONS.AUTH_ERROR).
  { eexists _, _. split; [reflexivity|]. by right. }
  destruct (is_case a AUTH_ACTIONS.LOGOUT).
  { eexists _, _. split; [reflexivity|]. by right. }
  destruct (is_case a AUTH_ACTIONS.CLEAR_ERRORS).
  { eexists _, _. split; [reflexivity|]. exact Hs. }
  destruct (is_case a AUTH_ACTIONS.SET_LOADING).
  { eexists _, _. split; [reflexivity|]. exact Hs. }
  eexists _, _. split; [reflexivity|]. exact Hs.
Qed.

Lemma reduceAll_invariant actions : ∀ s ls,
  user_iff_authenticated s →
  forallb well_formed actions = true →
  ∃ s' ls', reduceAll actions s ls = Normal (s', ls') ∧ user_iff_authenticated s'.
Proof.
  induction actions as [|a rest IH]; intros s ls Hs Hwf.
  - eexists _, _. split; [reflexivity | exact Hs].
  - simpl in Hwf. apply andb_true_iff in Hwf as [Ha Hrest].
    destruct (authReducer_invariant s a ls Hs Ha) as (s1 & ls1 & E1 & H1).
    destruct (IH s1 ls1 H1 Hrest) as (s' & ls' & E & H').
    exists s', ls'. split; [|exact H'].
    simpl. rewrite E1. exact E.
Qed.

Lemma user_iff_authenticated_iff s :
  user_iff_authenticated s →
  (isAuthenticated s = VBool true ↔ nullish (user s) = false).
Proof.
  intros [[Ha Hu] | [Ha Hu]]; rewrite Ha, ?Hu; simpl; split; congruence.
Qed.

(** C1, as amended.  From the initial state, every sequence of events that
    carry the payloads their reducer cases expect (a success payload with a
    string token and a present user, [USER_LOADED] with a present user) is
    reduced without a throw, and in the resulting state [isAuthenticated] is
    [true] if and only if [user] is present; it says nothing of [token],
    which [USER_LOADED] leaves as it was. *)
Theorem authenticated_iff_user_present (ls : Storage) (actions : list Action) :
  forallb well_formed actions = true →
  ∃ s' ls',
    reduceAll actions (initialState ls) ls = Normal (s', ls')
    ∧ (isAuthenticated s' = VBool true ↔ nullish (user s') = false).
Proof.
  intros Hwf.
  destruct (reduceAll_invariant actions (initialState ls) ls
              (initialState_invariant ls) Hwf) as (s' & ls' & E & H').
  exists s', ls'. split; [exact E|]. by apply user_iff_authenticated_iff.
Qed.

Lemma authenticated_iff_user_present_witness :
  forallb well_formed sample_session = true
  ∧ ∃ s' ls',
      reduceAll sample_session (initialState ∅) ∅ = Normal (s', ls')
      ∧ (isAuthenticated s' = VBool true ↔ nullish (user s') = false).
Proof.
  split; [reflexivity|].
  apply (authenticated_iff_user_present ∅ sample_session). reflexivity.
Defined.

(** The events of [logout_before_loaded] are what [logout] and a [loadUser]
    answered with the user dispatch. *)
Example logout_before_loaded_dispatched :
  (dispatched (effects logout)
   ++ dispatched (effects (loadUser (Fulfilled (VObj 6 [("data", VObj 7 [("user", admin)])])))))%list
  = logout_before_loaded.
Proof. reflexivity. Qed.

(** C1, as stated, fails: the token is stored, [loadUser] is in flight, the
    user logs out and the request then resolves.  The state is authenticated
    with a user and no token. *)
Lemma authenticated_without_token :
  ∃ s' ls',
    reduceAll logout_before_loaded (initialState stored_token) stored_token
    = Normal (s', ls')
    ∧ isAuthenticated s' = VBool true
    ∧ token s' = VNull
    ∧ ¬ (isAuthenticated s' = VBool true
         ↔ nullish (user s') = false ∧ nullish (token s') = false).
Proof.
  eexists _, _. split; [reflexivity|]. simpl.
  split; [done|]. split; [done|]. intros [H _]. by destruct H.
Qed.

(** ** Failure, logout and error clearing *)

(** C2.  [LOGIN_FAIL] with the message ["bad creds"], applied to any state
    and any storage, gives the state without token and user, not
    authenticated, not loading, with that message as [error], and removes the
    token slot from durable storage. *)
Theorem LOGIN_FAIL_bad_creds (s : AuthState) (ls : Storage) :
  authReducer s (event AUTH_ACTIONS.LOGIN_FAIL (VStr "bad creds")) ls
  = Normal ({| user := VNull;
               token := VNull;
               isAuthenticated := VBool false;
               loading := VBool false;
               error := VStr "bad creds" |}, removeItem "token" ls)
  ∧ removeItem "token" ls !! "token" = None
  ∧ getItem "token" (removeItem "token" ls) = VNull.
Proof.
  split; [reflexivity|].
  assert (removeItem "token" ls !! "token" = None) as H
    by apply lookup_delete_eq.
  split; [exact H|]. unfold getItem. by rewrite H.
Qed.

(** C3.  [LOGOUT], applied to any state (authenticated or not), clears
    [token], [user] and [error], sets [isAuthenticated] to [false] and removes
    the stored token; reducing [LOGOUT] a second time changes neither the
    state nor the storage. *)
Theorem LOGOUT_clears_and_is_idempotent (s : AuthState) (p : value) (ls : Storage) :
  authReducer s (event AUTH_ACTIONS.LOGOUT p) ls
  = Normal ({| user := VNull;
               token := VNull;
               isAuthenticated := VBool false;
               loading := VBool false;
               error := VNull |}, removeItem "token" ls)
  ∧ ('(s1, ls1) ← authReducer s (event AUTH_ACTIONS.LOGOUT p) ls;
     authReducer s1 (event AUTH_ACTIONS.LOGOUT p) ls1)
    = authReducer s (event AUTH_ACTIONS.LOGOUT p) ls.
Proof.
  split; [reflexivity|].
  rewrite authReducer_LOGOUT. simpl. rewrite authReducer_LOGOUT.
  unfold removeItem. by rewrite delete_delete_eq.
Qed.

(** C4.  [CLEAR_ERRORS] sets [error] to [null], keeps [user], [token],
    [isAuthenticated] and [loading], and leaves durable storage as it is. *)
Theorem CLEAR_ERRORS_only_error (s : AuthState) (p : value) (ls : Storage) :
  authReducer s (event AUTH_ACTIONS.CLEAR_ERRORS p) ls
  = Normal ({| user := user s;
               token := token s;
               isAuthenticated := isAuthenticated s;
               loading := loading s;
               error := VNull |}, ls).
Proof. reflexivity. Qed.

(** C5.  On an action whose [type] is none of the nine action types the
    reducer returns, without a throw, the state it was given; the storage is
    untouched. *)
Theorem authReducer_unknown_type (s : AuthState) (a : Action) (ls : Storage) :
  (∀ t, t ∈ AUTH_ACTIONS.all → type a ≠ VStr t) →
  authReducer s a ls = Normal (s, ls).
Proof.
  intros Hunknown.
  assert (∀ t, t ∈ AUTH_ACTIONS.all → is_case a t = false) as Hcase
    by (intros t Ht; apply is_case_false; auto).
  unfold authReducer.
  rewrite !Hcase by (unfold AUTH_ACTIONS.all; set_solver).
  reflexivity.
Qed.

Lemma authReducer_unknown_type_witness :
  (∀ t, t ∈ AUTH_ACTIONS.all → type (event "RESET" VUndefined) ≠ VStr t)
  ∧ authReducer (initialState ∅) (event "RESET" VUndefined) ∅
    = Normal (initialState ∅, ∅).
Proof.
  assert (∀ t, t ∈ AUTH_ACTIONS.all → type (event "RESET" VUndefined) ≠ VStr t)
    as H.
  { intros t Ht. unfold AUTH_ACTIONS.all in Ht.
    rewrite !elem_of_cons, elem_of_nil in Ht.
    destruct Ht as [->|[->|[->|[->|[->|[->|[->|[->|[->|[]]]]]]]]]];
      discriminate. }
  split; [exact H|].
  exact (authReducer_unknown_type (initialState ∅) (event "RESET" VUndefined) ∅ H).
Defined.

(** ** Queries *)

(** C6, as amended.  For every state and role string, [hasRole] returns
    [true] if and only if [user] is present and its [userType] is that
    string; when [user] is absent it returns the absent [user] itself
    ([null] or [undefined]), a falsy value, not the boolean [false]. *)
Theorem hasRole_true_iff (s : AuthState) (role : string) :
  (hasRole s (VStr role) = Normal (VBool true)
   ↔ nullish (user s) = false ∧ get (user s) "userType" = Normal (VStr role))
  ∧ (nullish (user s) = true →
     hasRole s (VStr role) = Normal (user s) ∧ to_boolean (user s) = false).
Proof.
  unfold hasRole. split.
  - destruct (user s) as [| |b|str|r props]; simpl.
    + split; [discriminate | intros [? _]; discriminate].
    + split; [discriminate | intros [? _]; discriminate].
    + destruct b; simpl; (split; [discriminate | intros [_ ?]; discriminate]).
    + destruct (negb (String.eqb str "")); simpl;
        (split; [discriminate | intros [_ ?]; discriminate]).
    + split.
      * intros H. split; [done|].
        assert (strict_equals (default VUndefined (own_property "userType" props))
                  (VStr role) = true) as E
          by (destruct (strict_equals _ _); [done | discriminate]).
        apply strict_equals_VStr in E. by rewrite E.
      * intros [_ H]. injection H as ->. simpl. by rewrite String.eqb_refl.
  - destruct (user s); simpl; try discriminate; done.
Qed.

Lemma hasRole_true_iff_witness :
  nullish (user (initialState ∅)) = true
  ∧ hasRole (initialState ∅) (VStr "admin") = Normal (user (initialState ∅))
  ∧ to_boolean (user (initialState ∅)) = false.
Proof.
  split; [reflexivity|].
  apply (proj2 (hasRole_true_iff (initialState ∅) "admin")). reflexivity.
Defined.

(** C6, as stated, fails: with [user] absent [hasRole("admin")] evaluates to
    [null], which is not the boolean [false]. *)
Lemma hasRole_absent_user_returns_null :
  hasRole (initialState ∅) (VStr "admin") = Normal VNull
  ∧ hasRole (initialState ∅) (VStr "admin") ≠ Normal (VBool false).
Proof. split; [reflexivity | discriminate]. Qed.

(** C7.  While [isAuthenticated] is [false] (or any falsy value)
    [canAccess] returns [false] for every list of roles, whatever [user]
    holds.  While it is [true] and [user] is present, [canAccess] returns a
    boolean that is [true] if and only if some element of [allowedRoles] is
    strictly equal to [user.userType]. *)
Theorem canAccess_spec (s : AuthState) (allowedRoles : list value) :
  (to_boolean (isAuthenticated s) = false →
   canAccess s allowedRoles = Normal (VBool false))
  ∧ (to_boolean (isAuthenticated s) = true →
     nullish (user s) = false →
     ∃ ut b,
       get (user s) "userType" = Normal ut
       ∧ canAccess s allowedRoles = Normal (VBool b)
       ∧ (b = true ↔ ∃ r, r ∈ allowedRoles ∧ strict_equals r ut = true)).
Proof.
  unfold canAccess. split.
  - intros ->. reflexivity.
  - intros -> Hu. destruct (get_present (user s) "userType" Hu) as [ut Hut].
    exists ut, (includes allowedRoles ut). rewrite Hut. simpl.
    split; [done|]. split; [done|]. apply includes_spec.
Qed.

Lemma canAccess_spec_witness :
  (to_boolean (isAuthenticated (initialState ∅)) = false
   ∧ canAccess (initialState ∅) [VStr "admin"; VStr "staff"] = Normal (VBool false))
  ∧ (to_boolean (VBool true) = true
     ∧ nullish admin = false
     ∧ ∃ ut b,
         get admin "userType" = Normal ut
         ∧ canAccess (mkAuthState admin VNull (VBool true) (VBool false) VNull)
             [VStr "admin"; VStr "staff"] = Normal (VBool b)
         ∧ (b = true ↔ ∃ r, r ∈ [VStr "admin"; VStr "staff"]
                             ∧ strict_equals r ut = true)).
Proof.
  split.
  - split; [reflexivity|].
    apply (proj1 (canAccess_spec (initialState ∅) [VStr "admin"; VStr "staff"])).
    reflexivity.
  - split; [reflexivity|]. split; [reflexivity|].
    apply (proj2 (canAccess_spec (mkAuthState admin VNull (VBool true) (VBool false) VNull)
                    [VStr "admin"; VStr "staff"])); reflexivity.
Defined.

(** ** Actions *)

Lemma failure_message_TypeError fallback :
  failure_message TypeError fallback = Normal (VStr fallback).
Proof. reflexivity. Qed.

(** The message of a rejection with an error object: the value at
    [response.data.message] when the chain reaches one and it is truthy, the
    fallback in every other case. *)
Lemma failure_message_Rejection reason fallback :
  nullish reason = false →
  ∃ message,
    failure_message (Rejection reason) fallback = Normal message
    ∧ (∀ r d m,
         get reason "response" = Normal r →
         get r "data" = Normal d →
         get d "message" = Normal m →
         to_boolean m = true →
         message = m)
    ∧ (message = VStr fallback
       ∨ ∃ r d,
           get reason "response" = Normal r
           ∧ get r "data" = Normal d
           ∧ get d "message" = Normal message
           ∧ to_boolean message = true).
Proof.
  intros Hreason.
  destruct (get_present reason "response" Hreason) as [r Hr].
  unfold failure_message, get_opt. simpl. rewrite Hr. simpl.
  destruct (nullish r) eqn:Nr; simpl.
  { exists (VStr fallback). split; [done|]. split; [|by left].
    intros r' d m [= <-] Hd. destruct r; discriminate. }
  destruct (get_present r "data" Nr) as [d Hd]. rewrite Hd. simpl.
  destruct (nullish d) eqn:Nd; simpl.
  { exists (VStr fallback). split; [done|]. split; [|by left].
    intros r' d' m [= <-] Hd' Hm. rewrite Hd in Hd'. injection Hd' as <-.
    destruct d; discriminate. }
  destruct (get_present d "message" Nd) as [m Hm]. rewrite Hm. simpl.
  exists (or_else m (VStr fallback)). split; [done|]. split.
  - intros r' d' m' [= <-] Hd' Hm' Ht.
    rewrite Hd in Hd'. injection Hd' as <-.
    rewrite Hm in Hm'. injection Hm' as <-.
    unfold or_else. by rewrite Ht.
  - unfold or_else. destruct (to_boolean m) eqn:Ht; [right | by left].
    exists r, d. by rewrite Hd, Hm.
Qed.

Lemma login_Rejected email password reason message :
  failure_message (Rejection reason) "Login failed" = Normal message →
  login email password (Rejected reason)
  = mkAct [Dispatch (event AUTH_ACTIONS.SET_LOADING (VBool true));
           Request "POST" "/api/auth/login" (Credentials email password);
           Dispatch (event AUTH_ACTIONS.LOGIN_FAIL message);
           ToastError message]
          (Normal (Failure message)).
Proof.
  intros Hm. run_act. rewrite Hm. reflexivity.
Qed.

Lemma login_Fulfilled email password res d u :
  get res "data" = Normal d →
  get d "user" = Normal u →
  login email password (Fulfilled res)
  = mkAct [Dispatch (event AUTH_ACTIONS.SET_LOADING (VBool true));
           Request "POST" "/api/auth/login" (Credentials email password);
           Dispatch (event AUTH_ACTIONS.LOGIN_SUCCESS d);
           ToastSuccess (VStr "Login successful!")]
          (Normal (SuccessUser u)).
Proof.
  intros Hd Hu. run_act. rewrite Hd. run_act. rewrite Hu. reflexivity.
Qed.




(** A promise rejected with [null] is outside axios's contract; there the
    read [error.response] in the handler would throw. *)
Remark login_Rejected_null email password :
  result (login email password (Rejected VNull)) = Throw TypeError.
Proof. reflexivity. Qed.

(** An error whose response carries no message, or an empty one: the
    default is used. *)
Example login_Rejected_no_message :
  result (login (VStr "a@b.c") (VStr "pw")
            (Rejected (VObj 2 [("response", VObj 3 [("data", VObj 4 [])])])))
  = Normal (Failure (VStr "Login failed"))
  ∧ result (login (VStr "a@b.c") (VStr "pw") (Rejected (axios_error "")))
    = Normal (Failure (VStr "Login failed")).
Proof. split; reflexivity. Qed.

(** ** [error] and [USER_LOADED] *)

Lemma authReducer_keeps_error s a ls :
  keeps_error a = true →
  ∃ s' ls', authReducer s a ls = Normal (s', ls') ∧ error s' = error s.
Proof.
  unfold keeps_error, authReducer. intros H. apply negb_true_iff in H.
  repeat (apply orb_false_iff in H as [H ?]).
  repeat match goal with E : is_case _ _ = false |- _ => rewrite E; clear E end.
  simpl.
  repeat (match goal with |- context [if ?b then _ else _] => destruct b end);
    eexists _, _; (split; [reflexivity|]); auto.
Qed.

Lemma reduceAll_keeps_error actions : ∀ s ls,
  forallb keeps_error actions = true →
  ∃ s' ls', reduceAll actions s ls = Normal (s', ls') ∧ error s' = error s.
Proof.
  induction actions as [|a rest IH]; intros s ls Hall.
  - eexists _, _. split; reflexivity.
  - simpl in Hall. apply andb_true_iff in Hall as [Ha Hrest].
    destruct (authReducer_keeps_error s a ls Ha) as (s1 & ls1 & E1 & H1).
    destruct (IH s1 ls1 Hrest) as (s' & ls' & E & H').
    exists s', ls'. simpl. rewrite E1. simpl. split; [exact E|]. congruence.
Qed.

(** C9, as amended.  A failure event stores its message in [error], and the
    message stays there over every sequence of [USER_LOADED], [SET_LOADING]
    and unknown events that follows: each of these leaves [error] as it was.
    [LOGIN_SUCCESS] and [REGISTER_SUCCESS] (which return on a payload whose
    token is a string, and whenever they return), [LOGOUT] and
    [CLEAR_ERRORS] reset it to [null]. *)
Theorem error_set_and_cleared (s : AuthState) (p : value) (ls : Storage) :
  (∀ t, t ∈ [AUTH_ACTIONS.LOGIN_FAIL; AUTH_ACTIONS.REGISTER_FAIL;
             AUTH_ACTIONS.AUTH_ERROR] →
        ∃ s' ls', authReducer s (event t p) ls = Normal (s', ls') ∧ error s' = p)
  ∧ (∀ t actions,
       t ∈ [AUTH_ACTIONS.LOGIN_FAIL; AUTH_ACTIONS.REGISTER_FAIL;
            AUTH_ACTIONS.AUTH_ERROR] →
       forallb keeps_error actions = true →
       ∃ s' ls', reduceAll (event t p :: actions) s ls = Normal (s', ls')
                 ∧ error s' = p)
  ∧ (∀ a, keeps_error a = true →
        ∃ s' ls', authReducer s a ls = Normal (s', ls') ∧ error s' = error s)
  ∧ (∃ s' ls',
       authReducer s (event AUTH_ACTIONS.USER_LOADED p) ls = Normal (s', ls')
       ∧ error s' = error s)
  ∧ (∀ t tok, t ∈ [AUTH_ACTIONS.LOGIN_SUCCESS; AUTH_ACTIONS.REGISTER_SUCCESS] →
        get p "token" = Normal (VStr tok) →
        ∃ s' ls', authReducer s (event t p) ls = Normal (s', ls') ∧ error s' = VNull)
  ∧ (∀ t s' ls', t ∈ [AUTH_ACTIONS.LOGIN_SUCCESS; AUTH_ACTIONS.REGISTER_SUCCESS] →
        authReducer s (event t p) ls = Normal (s', ls') →
        error s' = VNull)
  ∧ (∀ t, t ∈ [AUTH_ACTIONS.LOGOUT; AUTH_ACTIONS.CLEAR_ERRORS] →
        ∃ s' ls', authReducer s (event t p) ls = Normal (s', ls') ∧ error s' = VNull).
Proof.
  repeat apply conj.
  - intros t Ht. eexists _, _. split; [by apply authReducer_fail|]. done.
  - intros t actions Ht Hall.
    destruct (reduceAll_keeps_error actions
                (mkAuthState VNull VNull (VBool false) (VBool false) p)
                (removeItem "token" ls) Hall) as (s' & ls' & E & He).
    exists s', ls'. simpl. rewrite (authReducer_fail s p ls t Ht). simpl.
    split; [exact E | exact He].
  - intros a Ha. by apply authReducer_keeps_error.
  - eexists _, _. split; [apply authReducer_USER_LOADED|]. done.
  - intros t tok Ht Htok.
    pose proof (get_Normal_present p "token" _ Htok) as Hp.
    destruct (get_present p "user" Hp) as [u Hu].
    eexists _, _.
    split; [by apply (authReducer_success s p ls t (VStr tok) tok u)|]. done.
  - intros t s' ls'. rewrite !elem_of_cons, elem_of_nil.
    intros [-> | [-> | []]]; unfold authReducer, setItem; simpl;
      (destruct (get p "token") as [tk|]; simpl; [|discriminate]);
      (destruct (to_string tk); simpl; [|discriminate]);
      (destruct (get p "user"); simpl; [|discriminate]);
      by intros [= <- _].
  - intros t. rewrite !elem_of_cons, elem_of_nil.
    intros [-> | [-> | []]]; eexists _, _; (split; [reflexivity | done]).
Qed.

Lemma error_set_and_cleared_witness :
  (AUTH_ACTIONS.LOGIN_FAIL
     ∈ [AUTH_ACTIONS.LOGIN_FAIL; AUTH_ACTIONS.REGISTER_FAIL; AUTH_ACTIONS.AUTH_ERROR]
   ∧ forallb keeps_error [event AUTH_ACTIONS.SET_LOADING (VBool true);
                          event AUTH_ACTIONS.USER_LOADED admin;
                          event "RESET" VUndefined] = true)
  ∧ ∃ s' ls',
      reduceAll (event AUTH_ACTIONS.LOGIN_FAIL (VStr "bad creds")
                 :: [event AUTH_ACTIONS.SET_LOADING (VBool true);
                     event AUTH_ACTIONS.USER_LOADED admin;
                     event "RESET" VUndefined])
        (initialState stored_token) stored_token = Normal (s', ls')
      ∧ error s' = VStr "bad creds".
Proof.
  assert (AUTH_ACTIONS.LOGIN_FAIL
            ∈ [AUTH_ACTIONS.LOGIN_FAIL; AUTH_ACTIONS.REGISTER_FAIL;
               AUTH_ACTIONS.AUTH_ERROR]) as Hin
    by apply list_elem_of_here.
  split; [split; [exact Hin | reflexivity]|].
  exact (proj1 (proj2 (error_set_and_cleared (initialState stored_token)
                         (VStr "bad creds") stored_token))
           AUTH_ACTIONS.LOGIN_FAIL
           [event AUTH_ACTIONS.SET_LOADING (VBool true);
            event AUTH_ACTIONS.USER_LOADED admin;
            event "RESET" VUndefined] Hin eq_refl).
Defined.

(** C9, as stated, fails: after a failed login, a [USER_LOADED] that arrives
    late leaves the failure message in [error]. *)
Lemma USER_LOADED_keeps_error :
  reduceAll failed_then_loaded (initialState ∅) ∅
  = Normal ({| user := admin;
               token := VNull;
               isAuthenticated := VBool true;
               loading := VBool false;
               error := VStr "bad creds" |}, removeItem "token" ∅)
  ∧ VStr "bad creds" ≠ VNull.
Proof. split; [reflexivity | discriminate]. Qed.

(** ** Profile update *)

Lemma updateProfile_Fulfilled profileData res d u :
  get res "data" = Normal d →
  get d "user" = Normal u →
  updateProfile profileData (Fulfilled res)
  = mkAct [Request "PUT" "/api/auth/profile" (Data profileData);
           Dispatch (event AUTH_ACTIONS.USER_LOADED u);
           ToastSuccess (VStr "Profile updated successfully!")]
          (Normal Success).
Proof.
  intros Hd Hu. run_act. rewrite Hd. run_act. rewrite Hu. reflexivity.
Qed.

(** C10.  When the profile request is answered with a body, [updateProfile]
    dispatches [USER_LOADED] with the returned user and returns
    [{success: true}].  Reduced in any state, that event sets
    [isAuthenticated] to [true] and [loading] to [false] and keeps [token];
    reduced after a [LOGOUT], it gives an authenticated state whose [token]
    is [null], with no token in storage. *)
Theorem updateProfile_authenticates_without_token
    (profileData res d u : value) (s : AuthState) (ls : Storage) :
  get res "data" = Normal d →
  get d "user" = Normal u →
  updateProfile profileData (Fulfilled res)
  = mkAct [Request "PUT" "/api/auth/profile" (Data profileData);
           Dispatch (event AUTH_ACTIONS.USER_LOADED u);
           ToastSuccess (VStr "Profile updated successfully!")]
          (Normal Success)
  ∧ reduceAll (dispatched (effects (updateProfile profileData (Fulfilled res)))) s ls
    = Normal ({| user := u;
                 token := token s;
                 isAuthenticated := VBool true;
                 loading := VBool false;
                 error := error s |}, ls)
  ∧ reduceAll (dispatched (effects logout)
               ++ dispatched (effects (updateProfile profileData (Fulfilled res)))) s ls
    = Normal ({| user := u;
                 token := VNull;
                 isAuthenticated := VBool true;
                 loading := VBool false;
                 error := VNull |}, removeItem "token" ls)
  ∧ getItem "token" (removeItem "token" ls) = VNull.
Proof.
  intros Hd Hu.
  rewrite (updateProfile_Fulfilled profileData res d u Hd Hu).
  split; [reflexivity|]. split; [reflexivity|]. split; [reflexivity|].
  unfold getItem, removeItem. by rewrite lookup_delete_eq.
Qed.

Lemma updateProfile_authenticates_without_token_witness :
  (get (VObj 6 [("data", VObj 7 [("user", admin)])]) "data"
   = Normal (VObj 7 [("user", admin)])
   ∧ get (VObj 7 [("user", admin)]) "user" = Normal admin)
  ∧ reduceAll (dispatched (effects logout)
               ++ dispatched (effects (updateProfile (VObj 8 [("name", VStr "Ann")])
                                         (Fulfilled (VObj 6 [("data", VObj 7 [("user", admin)])])))))
      (initialState stored_token) stored_token
    = Normal ({| user := admin;
                 token := VNull;
                 isAuthenticated := VBool true;
                 loading := VBool false;
                 error := VNull |}, removeItem "token" stored_token).
Proof.
  split; [split; reflexivity|].
  exact (proj1 (proj2 (proj2
           (updateProfile_authenticates_without_token
              (VObj 8 [("name", VStr "Ann")])
              (VObj 6 [("data", VObj 7 [("user", admin)])])
              (VObj 7 [("user", admin)]) admin
              (initialState stored_token) stored_token eq_refl eq_refl)))).
Defined.

(** * Further properties of the provider *)

(** ** Durable storage *)

Lemma authReducer_token_persisted s a ls :
  token s = getItem "token" ls →
  string_token a = true →
  ∃ s' ls', authReducer s a ls = Normal (s', ls') ∧ token s' = getItem "token" ls'.
Proof.
  intros Hs Ha. unfold string_token in Ha. unfold authReducer, setItem.
  destruct (is_case a AUTH_ACTIONS.LOGIN_SUCCESS
            || is_case a AUTH_ACTIONS.REGISTER_SUCCESS).
  { destruct (get (payload a) "token") as [[| | |t|]|] eqn:Ht; try discriminate.
    pose proof (get_Normal_present _ _ _ Ht) as Hp.
    destruct (get_present (payload a) "user" Hp) as [u ->]. simpl.
    eexists _, _. split; [reflexivity|]. simpl.
    by rewrite getItem_insert. }
  assert (getItem "token" (removeItem "token" ls) = VNull) as Hrm
    by apply getItem_removeItem.
  repeat (match goal with |- context [if ?b then _ else _] => destruct b end);
    eexists _, _; (split; [reflexivity|]); simpl; auto.
Qed.

(** X1.  The token in the state is the token a reload would read.  From the
    initial state, over every sequence of events whose success payloads carry
    a string token, the reducer does not throw and [state.token] equals
    [localStorage.getItem('token')]. *)
Theorem token_mirrors_storage (ls : Storage) (actions : list Action) :
  forallb string_token actions = true →
  ∃ s' ls',
    reduceAll actions (initialState ls) ls = Normal (s', ls')
    ∧ token s' = getItem "token" ls'
    ∧ token (initialState ls') = token s'.
Proof.
  assert (∀ s l, token s = getItem "token" l →
                 forallb string_token actions = true →
                 ∃ s' ls', reduceAll actions s l = Normal (s', ls')
                           ∧ token s' = getItem "token" ls') as Hgen.
  { induction actions as [|a rest IH]; intros s l Hs Hall.
    - eexists _, _. split; [reflexivity | exact Hs].
    - simpl in Hall. apply andb_true_iff in Hall as [Ha Hrest].
      destruct (authReducer_token_persisted s a l Hs Ha) as (s1 & l1 & E1 & H1).
      destruct (IH s1 l1 H1 Hrest) as (s' & ls' & E & H').
      exists s', ls'. split; [|exact H']. simpl. rewrite E1. exact E. }
  intros Hall. destruct (Hgen (initialState ls) ls eq_refl Hall) as (s' & ls' & E & H').
  exists s', ls'. split; [exact E|]. split; [exact H'|]. simpl. by rewrite H'.
Qed.

Lemma token_mirrors_storage_witness :
  forallb string_token sample_session = true
  ∧ ∃ s' ls',
      reduceAll sample_session (initialState stored_token) stored_token
      = Normal (s', ls')
      ∧ token s' = getItem "token" ls'
      ∧ token (initialState ls') = token s'.
Proof.
  split; [reflexivity|].
  apply (token_mirrors_storage stored_token sample_session). reflexivity.
Defined.

(** X2.  A success event stores ToString of the token it puts in the state.
    For a token that is [undefined], [null], a boolean, a string or an object
    without an own [toString], where ToString gives [str]: the reducer
    returns with the token in the state and [str] in the storage; a reload
    then starts from the string [str], which is the token of the state
    exactly when that token is a string, and which is truthy (a payload
    without [token] is reloaded as ["undefined"]) unless the token was the
    empty string.  For a token that is an object with an own [toString]
    property the reducer throws a [TypeError]. *)
Theorem success_token_is_stored_as_string
    (s : AuthState) (t : string) (p tok : value) (ls : Storage) :
  t ∈ [AUTH_ACTIONS.LOGIN_SUCCESS; AUTH_ACTIONS.REGISTER_SUCCESS] →
  get p "token" = Normal tok →
  (∀ str, to_string tok = Normal str →
     ∃ s',
       authReducer s (event t p) ls = Normal (s', <["token" := str]> ls)
       ∧ token s' = tok
       ∧ token (initialState (<["token" := str]> ls)) = VStr str
       ∧ (token (initialState (<["token" := str]> ls)) = token s'
          ↔ ∃ x, tok = VStr x)
       ∧ (tok = VStr ""
          ∨ to_boolean (token (initialState (<["token" := str]> ls))) = true))
  ∧ (∀ r props w,
       tok = VObj r props →
       own_property "toString" props = Some w →
       authReducer s (event t p) ls = Throw TypeError)
  ∧ ((∃ str, to_string tok = Normal str)
     ∨ (∃ r props w, tok = VObj r props ∧ own_property "toString" props = Some w)).
Proof.
  intros Ht Htok.
  pose proof (get_Normal_present p "token" _ Htok) as Hp.
  destruct (get_present p "user" Hp) as [u Hu].
  split; [|split].
  - intros str Hstr.
    eexists. split; [by apply (authReducer_success s p ls t tok str u)|].
    assert (token (initialState (<["token" := str]> ls)) = VStr str) as E
      by (simpl; apply getItem_insert).
    split; [reflexivity|]. split; [exact E|]. rewrite E. simpl. split.
    + split.
      * intros <-. eauto.
      * intros [x ->]. simpl in Hstr. congruence.
    + destruct tok as [| |[]|x|r props]; simpl in Hstr.
      * injection Hstr as <-. auto.
      * injection Hstr as <-. auto.
      * injection Hstr as <-. auto.
      * injection Hstr as <-. auto.
      * injection Hstr as Hx. subst str. destruct x; simpl; auto.
      * destruct (own_property "toString" props); [discriminate|].
        injection Hstr as <-. auto.
  - intros r props w -> Hw.
    apply (authReducer_success_throws s p ls t (VObj r props) Ht Htok).
    apply to_string_throws_iff. eauto.
  - destruct (to_string tok) as [str|e] eqn:E; [eauto|].
    right. apply to_string_throws_iff.
    by rewrite <- (to_string_throws_TypeError tok e E).
Qed.

Lemma success_token_is_stored_as_string_witness :
  (AUTH_ACTIONS.LOGIN_SUCCESS ∈ [AUTH_ACTIONS.LOGIN_SUCCESS; AUTH_ACTIONS.REGISTER_SUCCESS]
   ∧ get (VObj 9 [("user", admin)]) "token" = Normal VUndefined
   ∧ to_string VUndefined = Normal "undefined")
  ∧ ∃ s',
      authReducer (initialState ∅) (event AUTH_ACTIONS.LOGIN_SUCCESS (VObj 9 [("user", admin)])) ∅
      = Normal (s', <["token" := "undefined"]> ∅)
      ∧ token s' = VUndefined
      ∧ token (initialState (<["token" := "undefined"]> ∅)) = VStr "undefined"
      ∧ (token (initialState (<["token" := "undefined"]> ∅)) = token s'
         ↔ ∃ x, VUndefined = VStr x)
      ∧ (VUndefined = VStr ""
         ∨ to_boolean (token (initialState (<["token" := "undefined"]> ∅))) = true).
Proof.
  assert (AUTH_ACTIONS.LOGIN_SUCCESS
            ∈ [AUTH_ACTIONS.LOGIN_SUCCESS; AUTH_ACTIONS.REGISTER_SUCCESS]) as Hin
    by apply list_elem_of_here.
  split; [split; [exact Hin | split; reflexivity]|].
  exact (proj1 (success_token_is_stored_as_string (initialState ∅)
                  AUTH_ACTIONS.LOGIN_SUCCESS (VObj 9 [("user", admin)]) VUndefined ∅
                  Hin eq_refl) "undefined" eq_refl).
Defined.

Lemma authReducer_other_keys s a ls s' ls' k :
  authReducer s a ls = Normal (s', ls') →
  k ≠ "token" →
  ls' !! k = ls !! k.
Proof.
  unfold authReducer, setItem. intros H Hk.
  assert (removeItem "token" ls !! k = ls !! k) as Hrm
    by (unfold removeItem; by rewrite lookup_delete_ne).
  destruct (is_case a AUTH_ACTIONS.LOGIN_SUCCESS
            || is_case a AUTH_ACTIONS.REGISTER_SUCCESS).
  { destruct (get (payload a) "token") as [t|]; [|discriminate]. simpl in H.
    destruct (to_string t) as [str|]; [|discriminate]. simpl in H.
    destruct (get (payload a) "user") as [u|]; [|discriminate].
    simpl in H. injection H as _ <-. by rewrite lookup_insert_ne. }
  repeat (match type of H with context [if ?b then _ else _] => destruct b end);
    simpl in H; injection H as _ <-; auto.
Qed.

(** X3.  The reducer writes no storage key but [token]: whatever the events
    of a sequence are, every other key of [localStorage] holds after it what
    it held before. *)
Theorem reduceAll_other_keys (actions : list Action) (s s' : AuthState)
    (ls ls' : Storage) (k : string) :
  reduceAll actions s ls = Normal (s', ls') →
  k ≠ "token" →
  ls' !! k = ls !! k.
Proof.
  revert s ls. induction actions as [|a rest IH]; intros s ls H Hk.
  - simpl in H. by injection H as _ <-.
  - simpl in H. destruct (authReducer s a ls) as [[s1 ls1]|] eqn:E1; [|discriminate].
    simpl in H. rewrite (IH s1 ls1 H Hk).
    by apply (authReducer_other_keys s a ls s1 ls1 k).
Qed.

Lemma reduceAll_other_keys_witness :
  (reduceAll sample_session (initialState other_keys) other_keys
   = Normal (mkAuthState admin (VStr "t1") (VBool true) (VBool false) VNull,
             <["token" := "t1"]> (removeItem "token" other_keys))
   ∧ "theme" ≠ "token")
  ∧ (<["token" := "t1"]> (removeItem "token" other_keys) : Storage) !! "theme"
    = other_keys !! "theme".
Proof.
  assert ("theme" ≠ "token") as Hne by discriminate.
  split; [split; [reflexivity | exact Hne]|].
  exact (reduceAll_other_keys sample_session (initialState other_keys) _ other_keys _
           "theme" eq_refl Hne).
Defined.

Lemma authReducer_passive s a ls :
  passive a = true →
  ∃ s', authReducer s a ls = Normal (s', ls)
        ∧ user s' = user s ∧ token s' = token s
        ∧ isAuthenticated s' = isAuthenticated s.
Proof.
  unfold passive, authReducer. intros H. apply negb_true_iff in H.
  repeat (apply orb_false_iff in H as [H ?]).
  repeat match goal with E : is_case _ _ = false |- _ => rewrite E; clear E end.
  simpl.
  repeat (match goal with |- context [if ?b then _ else _] => destruct b end);
    eexists; (split; [reflexivity|]); auto.
Qed.

(** X4.  Only the seven authentication events change who is logged in: a
    sequence of other events ([CLEAR_ERRORS], [SET_LOADING], unknown types)
    is reduced without a throw and keeps [user], [token], [isAuthenticated]
    and the storage. *)
Theorem passive_events_keep_session (actions : list Action) (s : AuthState)
    (ls : Storage) :
  forallb passive actions = true →
  ∃ s', reduceAll actions s ls = Normal (s', ls)
        ∧ user s' = user s ∧ token s' = token s
        ∧ isAuthenticated s' = isAuthenticated s.
Proof.
  revert s. induction actions as [|a rest IH]; intros s Hall.
  - exists s. auto.
  - simpl in Hall. apply andb_true_iff in Hall as [Ha Hrest].
    destruct (authReducer_passive s a ls Ha) as (s1 & E1 & Hu & Ht & Hi).
    destruct (IH s1 Hrest) as (s' & E & Hu' & Ht' & Hi').
    exists s'. simpl. rewrite E1. simpl. split; [exact E|].
    rewrite Hu', Ht', Hi'. auto.
Qed.

Lemma passive_events_keep_session_witness :
  forallb passive [event AUTH_ACTIONS.SET_LOADING (VBool true);
                   event "RESET" VUndefined;
                   event AUTH_ACTIONS.CLEAR_ERRORS VUndefined] = true
  ∧ ∃ s', reduceAll [event AUTH_ACTIONS.SET_LOADING (VBool true);
                     event "RESET" VUndefined;
                     event AUTH_ACTIONS.CLEAR_ERRORS VUndefined]
            (initialState stored_token) stored_token = Normal (s', stored_token)
          ∧ user s' = user (initialState stored_token)
          ∧ token s' = token (initialState stored_token)
          ∧ isAuthenticated s' = isAuthenticated (initialState stored_token).
Proof.
  split; [reflexivity|].
  apply (passive_events_keep_session _ (initialState stored_token) stored_token).
  reflexivity.
Defined.

(** ** Logging in and registering *)

Lemma reduce_fail_after t b m s ls :
  t ∈ [AUTH_ACTIONS.LOGIN_FAIL; AUTH_ACTIONS.REGISTER_FAIL; AUTH_ACTIONS.AUTH_ERROR] →
  reduceAll [event AUTH_ACTIONS.SET_LOADING b; event t m] s ls
  = Normal (mkAuthState VNull VNull (VBool false) (VBool false) m,
            removeItem "token" ls).
Proof.
  rewrite !elem_of_cons, elem_of_nil.
  intros [-> | [-> | [-> | []]]]; reflexivity.
Qed.

Lemma reduce_success_after t b d tok str u s ls :
  t ∈ [AUTH_ACTIONS.LOGIN_SUCCESS; AUTH_ACTIONS.REGISTER_SUCCESS] →
  get d "token" = Normal tok →
  to_string tok = Normal str →
  get d "user" = Normal u →
  reduceAll [event AUTH_ACTIONS.SET_LOADING b; event t d] s ls
  = Normal (mkAuthState u tok (VBool true) (VBool false) VNull,
            <["token" := str]> ls).
Proof.
  intros Ht Htok Hstr Hu.
  change (reduceAll [event AUTH_ACTIONS.SET_LOADING b; event t d] s ls)
    with ('(s1, ls1) ← authReducer
              (mkAuthState (user s) (token s) (isAuthenticated s) b (error s))
              (event t d) ls;
          Normal (s1, ls1)).
  by rewrite (authReducer_success _ d ls t tok str u Ht Htok Hstr Hu).
Qed.

Lemma login_no_response email password res :
  nullish res = true →
  login email password (Fulfilled res)
  = mkAct [Dispatch (event AUTH_ACTIONS.SET_LOADING (VBool true));
           Request "POST" "/api/auth/login" (Credentials email password);
           Dispatch (event AUTH_ACTIONS.LOGIN_FAIL (VStr "Login failed"));
           ToastError (VStr "Login failed")]
          (Normal (Failure (VStr "Login failed"))).
Proof. destruct res; try discriminate; reflexivity. Qed.

Lemma login_no_body email password res d :
  get res "data" = Normal d →
  nullish d = true →
  login email password (Fulfilled res)
  = mkAct [Dispatch (event AUTH_ACTIONS.SET_LOADING (VBool true));
           Request "POST" "/api/auth/login" (Credentials email password);
           Dispatch (event AUTH_ACTIONS.LOGIN_SUCCESS d);
           ToastSuccess (VStr "Login successful!");
           Dispatch (event AUTH_ACTIONS.LOGIN_FAIL (VStr "Login failed"));
           ToastError (VStr "Login failed")]
          (Normal (Failure (VStr "Login failed"))).
Proof.
  intros Hd Hn. run_act. rewrite Hd. run_act.
  destruct d; try discriminate; reflexivity.
Qed.

(** X5.  What [login] returns agrees with what it leaves in the store, once
    the events it dispatched are reduced, from any state.  Answered with a
    body whose token is a string: it returns [{success: true, user}] and the
    state is authenticated with that user and token, not loading, without
    error, the token stored.  Answered with no response object, or rejected
    with an error object: it returns [{success: false, message}] and the
    state holds that message, not loading, without user or token, the stored
    token removed; the message is ["Login failed"], or the truthy
    [response.data.message] of the error. *)
Theorem login_settles_store (email password : value) (reply : settled)
    (s : AuthState) (ls : Storage) :
  (∀ res d tok u, reply = Fulfilled res →
     get res "data" = Normal d →
     get d "token" = Normal (VStr tok) →
     get d "user" = Normal u →
     result (login email password reply) = Normal (SuccessUser u)
     ∧ reduceAll (dispatched (effects (login email password reply))) s ls
       = Normal (mkAuthState u (VStr tok) (VBool true) (VBool false) VNull,
                 <["token" := tok]> ls))
  ∧ (∀ res, reply = Fulfilled res →
     nullish res = true →
     result (login email password reply) = Normal (Failure (VStr "Login failed"))
     ∧ reduceAll (dispatched (effects (login email password reply))) s ls
       = Normal (mkAuthState VNull VNull (VBool false) (VBool false)
                   (VStr "Login failed"), removeItem "token" ls))
  ∧ (∀ reason, reply = Rejected reason →
     nullish reason = false →
     ∃ m,
       result (login email password reply) = Normal (Failure m)
       ∧ reduceAll (dispatched (effects (login email password reply))) s ls
         = Normal (mkAuthState VNull VNull (VBool false) (VBool false) m,
                   removeItem "token" ls)
       ∧ (∀ r d x,
            get reason "response" = Normal r →
            get r "data" = Normal d →
            get d "message" = Normal x →
            to_boolean x = true →
            m = x)
       ∧ (m = VStr "Login failed"
          ∨ ∃ r d,
              get reason "response" = Normal r
              ∧ get r "data" = Normal d
              ∧ get d "message" = Normal m
              ∧ to_boolean m = true)).
Proof.
  split; [|split].
  - intros res d tok u -> Hd Htok Hu.
    rewrite (login_Fulfilled email password res d u Hd Hu).
    split; [reflexivity|].
    apply (reduce_success_after AUTH_ACTIONS.LOGIN_SUCCESS (VBool true) d
             (VStr tok) tok u); [apply list_elem_of_here | done | done | done].
  - intros res -> Hn. rewrite (login_no_response email password res Hn).
    split; [reflexivity|].
    apply (reduce_fail_after AUTH_ACTIONS.LOGIN_FAIL). apply list_elem_of_here.
  - intros reason -> Hn.
    destruct (failure_message_Rejection reason "Login failed" Hn)
      as (m & Hm & Htruthy & Hor).
    exists m. rewrite (login_Rejected email password reason m Hm).
    split; [reflexivity|]. split; [|split; assumption].
    apply (reduce_fail_after AUTH_ACTIONS.LOGIN_FAIL). apply list_elem_of_here.
Qed.

Lemma login_settles_store_witness :
  (Fulfilled (response session_body) = Fulfilled (response session_body)
   ∧ get (response session_body) "data" = Normal session_body
   ∧ get session_body "token" = Normal (VStr "t1")
   ∧ get session_body "user" = Normal admin)
  ∧ result (login (VStr "a@b.c") (VStr "pw") (Fulfilled (response session_body)))
    = Normal (SuccessUser admin)
  ∧ reduceAll (dispatched (effects (login (VStr "a@b.c") (VStr "pw")
                                      (Fulfilled (response session_body)))))
      (initialState ∅) ∅
    = Normal (mkAuthState admin (VStr "t1") (VBool true) (VBool false) VNull,
              <["token" := "t1"]> ∅).
Proof.
  split; [repeat split|].
  exact (proj1 (login_settles_store (VStr "a@b.c") (VStr "pw")
                  (Fulfilled (response session_body)) (initialState ∅) ∅)
           (response session_body) session_body "t1" admin
           eq_refl eq_refl eq_refl eq_refl).
Defined.

(** X6.  A response without a body.  [login] then dispatches [LOGIN_SUCCESS]
    with the absent body before the read of [res.data.user] throws into its
    own handler: it returns [{success: false, message: "Login failed"}], and
    the reducer throws a [TypeError] on the [LOGIN_SUCCESS] it was sent,
    from any state. *)
Theorem login_without_body (email password res d : value) (s : AuthState)
    (ls : Storage) :
  get res "data" = Normal d →
  nullish d = true →
  result (login email password (Fulfilled res)) = Normal (Failure (VStr "Login failed"))
  ∧ dispatched (effects (login email password (Fulfilled res)))
    = [event AUTH_ACTIONS.SET_LOADING (VBool true);
       event AUTH_ACTIONS.LOGIN_SUCCESS d;
       event AUTH_ACTIONS.LOGIN_FAIL (VStr "Login failed")]
  ∧ reduceAll (dispatched (effects (login email password (Fulfilled res)))) s ls
    = Throw TypeError.
Proof.
  intros Hd Hn. rewrite (login_no_body email password res d Hd Hn).
  split; [reflexivity|]. split; [reflexivity|].
  destruct d; try discriminate; reflexivity.
Qed.

Lemma login_without_body_witness :
  (get (VObj 6 []) "data" = Normal VUndefined ∧ nullish VUndefined = true)
  ∧ result (login (VStr "a@b.c") (VStr "pw") (Fulfilled (VObj 6 [])))
    = Normal (Failure (VStr "Login failed"))
  ∧ dispatched (effects (login (VStr "a@b.c") (VStr "pw") (Fulfilled (VObj 6 []))))
    = [event AUTH_ACTIONS.SET_LOADING (VBool true);
       event AUTH_ACTIONS.LOGIN_SUCCESS VUndefined;
       event AUTH_ACTIONS.LOGIN_FAIL (VStr "Login failed")]
  ∧ reduceAll (dispatched (effects (login (VStr "a@b.c") (VStr "pw")
                                      (Fulfilled (VObj 6 [])))))
      (initialState ∅) ∅
    = Throw TypeError.
Proof.
  split; [split; reflexivity|].
  exact (login_without_body (VStr "a@b.c") (VStr "pw") (VObj 6 []) VUndefined
           (initialState ∅) ∅ eq_refl eq_refl).
Defined.

Lemma register_Rejected userData reason message :
  failure_message (Rejection reason) "Registration failed" = Normal message →
  register userData (Rejected reason)
  = mkAct [Dispatch (event AUTH_ACTIONS.SET_LOADING (VBool true));
           Request "POST" "/api/auth/register" (Data userData);
           Dispatch (event AUTH_ACTIONS.REGISTER_FAIL message);
           ToastError message]
          (Normal (Failure message)).
Proof. intros Hm. run_more. rewrite Hm. reflexivity. Qed.

Lemma register_Fulfilled userData res d u :
  get res "data" = Normal d →
  get d "user" = Normal u →
  register userData (Fulfilled res)
  = mkAct [Dispatch (event AUTH_ACTIONS.SET_LOADING (VBool true));
           Request "POST" "/api/auth/register" (Data userData);
           Dispatch (event AUTH_ACTIONS.REGISTER_SUCCESS d);
           ToastSuccess (VStr "Registration successful!")]
          (Normal (SuccessUser u)).
Proof.
  intros Hd Hu. run_more. rewrite Hd. run_act. rewrite Hu. reflexivity.
Qed.

Lemma register_no_response userData res :
  nullish res = true →
  register userData (Fulfilled res)
  = mkAct [Dispatch (event AUTH_ACTIONS.SET_LOADING (VBool true));
           Request "POST" "/api/auth/register" (Data userData);
           Dispatch (event AUTH_ACTIONS.REGISTER_FAIL (VStr "Registration failed"));
           ToastError (VStr "Registration failed")]
          (Normal (Failure (VStr "Registration failed"))).
Proof. destruct res; try discriminate; reflexivity. Qed.

Lemma register_no_body userData res d :
  get res "data" = Normal d →
  nullish d = true →
  register userData (Fulfilled res)
  = mkAct [Dispatch (event AUTH_ACTIONS.SET_LOADING (VBool true));
           Request "POST" "/api/auth/register" (Data userData);
           Dispatch (event AUTH_ACTIONS.REGISTER_SUCCESS d);
           ToastSuccess (VStr "Registration successful!");
           Dispatch (event AUTH_ACTIONS.REGISTER_FAIL (VStr "Registration failed"));
           ToastError (VStr "Registration failed")]
          (Normal (Failure (VStr "Registration failed"))).
Proof.
  intros Hd Hn. run_more. rewrite Hd. run_act.
  destruct d; try discriminate; reflexivity.
Qed.

(** X7.  [register] never throws to its caller when a rejection carries an
    error object.  On a rejection it posts the user data, dispatches
    [REGISTER_FAIL] with the message, shows it and returns
    [{success: false, message}], the message being [response.data.message]
    of the error when the error carries one and it is truthy, and
    ["Registration failed"] in every other case; on a response with a body
    it dispatches [REGISTER_SUCCESS] with the body and returns
    [{success: true, user}]. *)
Theorem register_returns_result (userData : value) (reply : settled) :
  (∀ reason, reply = Rejected reason → nullish reason = false) →
  (∃ r, result (register userData reply) = Normal r)
  ∧ (∀ reason, reply = Rejected reason →
     ∃ message,
       register userData reply
       = mkAct [Dispatch (event AUTH_ACTIONS.SET_LOADING (VBool true));
                Request "POST" "/api/auth/register" (Data userData);
                Dispatch (event AUTH_ACTIONS.REGISTER_FAIL message);
                ToastError message]
               (Normal (Failure message))
       ∧ (∀ r d m,
            get reason "response" = Normal r →
            get r "data" = Normal d →
            get d "message" = Normal m →
            to_boolean m = true →
            message = m)
       ∧ (message = VStr "Registration failed"
          ∨ ∃ r d,
              get reason "response" = Normal r
              ∧ get r "data" = Normal d
              ∧ get d "message" = Normal message
              ∧ to_boolean message = true))
  ∧ (∀ res d u, reply = Fulfilled res →
     get res "data" = Normal d →
     get d "user" = Normal u →
     register userData reply
     = mkAct [Dispatch (event AUTH_ACTIONS.SET_LOADING (VBool true));
              Request "POST" "/api/auth/register" (Data userData);
              Dispatch (event AUTH_ACTIONS.REGISTER_SUCCESS d);
              ToastSuccess (VStr "Registration successful!")]
             (Normal (SuccessUser u))).
Proof.
  intros Herr. split; [|split].
  - destruct reply as [res | reason].
    + destruct (get res "data") as [d|e] eqn:Hd.
      * destruct (nullish d) eqn:Hn.
        -- eexists. by rewrite (register_no_body userData res d Hd Hn).
        -- destruct (get_present d "user" Hn) as [u Hu].
           eexists. by rewrite (register_Fulfilled userData res d u Hd Hu).
      * apply get_throws in Hd. eexists.
        by rewrite (register_no_response userData res Hd).
    + destruct (failure_message_Rejection reason "Registration failed"
                  (Herr _ eq_refl)) as (message & Hm & _).
      eexists. by rewrite (register_Rejected userData reason message Hm).
  - intros reason ->.
    destruct (failure_message_Rejection reason "Registration failed"
                (Herr _ eq_refl)) as (message & Hm & Htruthy & Hor).
    exists message. split; [by apply register_Rejected|]. split; assumption.
  - intros res d u -> Hd Hu. by apply register_Fulfilled.
Qed.

Lemma register_returns_result_witness :
  (∀ reason, Rejected (axios_error "email taken") = Rejected reason →
             nullish reason = false)
  ∧ result (register (VObj 8 [("email", VStr "a@b.c")])
              (Rejected (axios_error "email taken")))
    = Normal (Failure (VStr "email taken"))
  ∧ ∃ r, result (register (VObj 8 [("email", VStr "a@b.c")])
                   (Rejected (axios_error "email taken")))
         = Normal r.
Proof.
  assert (∀ reason, Rejected (axios_error "email taken") = Rejected reason →
                    nullish reason = false) as H
    by (intros reason [= <-]; reflexivity).
  split; [exact H|]. split; [reflexivity|].
  exact (proj1 (register_returns_result (VObj 8 [("email", VStr "a@b.c")])
                  (Rejected (axios_error "email taken")) H)).
Defined.

(** X8.  What [register] returns agrees with what it leaves in the store,
    as for [login].  Answered with a body whose token is a string: it returns
    [{success: true, user}] and the state is authenticated with that user
    and token, not loading, without error, the token stored.  Answered with
    no response object, or rejected with an error object: it returns
    [{success: false, message}] and the state holds that message, not
    loading, without user or token, the stored token removed; the message is
    ["Registration failed"], or the truthy [response.data.message] of the
    error. *)
Theorem register_settles_store (userData : value) (reply : settled)
    (s : AuthState) (ls : Storage) :
  (∀ res d tok u, reply = Fulfilled res →
     get res "data" = Normal d →
     get d "token" = Normal (VStr tok) →
     get d "user" = Normal u →
     result (register userData reply) = Normal (SuccessUser u)
     ∧ reduceAll (dispatched (effects (register userData reply))) s ls
       = Normal (mkAuthState u (VStr tok) (VBool true) (VBool false) VNull,
                 <["token" := tok]> ls))
  ∧ (∀ res, reply = Fulfilled res →
     nullish res = true →
     result (register userData reply)
     = Normal (Failure (VStr "Registration failed"))
     ∧ reduceAll (dispatched (effects (register userData reply))) s ls
       = Normal (mkAuthState VNull VNull (VBool false) (VBool false)
                   (VStr "Registration failed"), removeItem "token" ls))
  ∧ (∀ reason, reply = Rejected reason →
     nullish reason = false →
     ∃ m,
       result (register userData reply) = Normal (Failure m)
       ∧ reduceAll (dispatched (effects (register userData reply))) s ls
         = Normal (mkAuthState VNull VNull (VBool false) (VBool false) m,
                   removeItem "token" ls)
       ∧ (∀ r d x,
            get reason "response" = Normal r →
            get r "data" = Normal d →
            get d "message" = Normal x →
            to_boolean x = true →
            m = x)
       ∧ (m = VStr "Registration failed"
          ∨ ∃ r d,
              get reason "response" = Normal r
              ∧ get r "data" = Normal d
              ∧ get d "message" = Normal m
              ∧ to_boolean m = true)).
Proof.
  split; [|split].
  - intros res d tok u -> Hd Htok Hu.
    rewrite (register_Fulfilled userData res d u Hd Hu).
    split; [reflexivity|].
    apply (reduce_success_after AUTH_ACTIONS.REGISTER_SUCCESS (VBool true) d
             (VStr tok) tok u);
      [apply list_elem_of_further, list_elem_of_here | done | done | done].
  - intros res -> Hn. rewrite (register_no_response userData res Hn).
    split; [reflexivity|].
    apply (reduce_fail_after AUTH_ACTIONS.REGISTER_FAIL).
    apply list_elem_of_further, list_elem_of_here.
  - intros reason -> Hn.
    destruct (failure_message_Rejection reason "Registration failed" Hn)
      as (m & Hm & Htruthy & Hor).
    exists m. rewrite (register_Rejected userData reason m Hm).
    split; [reflexivity|]. split; [|split; assumption].
    apply (reduce_fail_after AUTH_ACTIONS.REGISTER_FAIL).
    apply list_elem_of_further, list_elem_of_here.
Qed.

Lemma register_settles_store_witness :
  (Rejected (axios_error "email taken") = Rejected (axios_error "email taken")
   ∧ nullish (axios_error "email taken") = false)
  ∧ ∃ m,
      result (register (VObj 8 [("email", VStr "a@b.c")])
                (Rejected (axios_error "email taken")))
      = Normal (Failure m)
      ∧ reduceAll (dispatched (effects (register (VObj 8 [("email", VStr "a@b.c")])
                                          (Rejected (axios_error "email taken")))))
          (initialState stored_token) stored_token
        = Normal (mkAuthState VNull VNull (VBool false) (VBool false) m,
                  removeItem "token" stored_token)
      ∧ m = VStr "email taken".
Proof.
  split; [split; reflexivity|].
  destruct (proj2 (proj2 (register_settles_store (VObj 8 [("email", VStr "a@b.c")])
                            (Rejected (axios_error "email taken"))
                            (initialState stored_token) stored_token))
              (axios_error "email taken") eq_refl eq_refl)
    as (m & Hr & Hred & Htruthy & _).
  exists m. split; [exact Hr|]. split; [exact Hred|].
  exact (Htruthy _ _ (VStr "email taken") eq_refl eq_refl eq_refl eq_refl).
Defined.

(** ** Loading the user *)

Lemma loadUser_Fulfilled res d u :
  get res "data" = Normal d →
  get d "user" = Normal u →
  loadUser (Fulfilled res)
  = mkAct [Request "GET" "/api/auth/me" NoData;
           Dispatch (event AUTH_ACTIONS.USER_LOADED u)]
          (Normal tt).
Proof.
  intros Hd Hu. run_act. rewrite Hd. run_act. rewrite Hu. reflexivity.
Qed.

Lemma loadUser_malformed res :
  (∀ d u, get res "data" = Normal d → get d "user" = Normal u → False) →
  loadUser (Fulfilled res)
  = mkAct [Request "GET" "/api/auth/me" NoData;
           Dispatch (event AUTH_ACTIONS.AUTH_ERROR (VStr "Authentication failed"))]
          (Normal tt).
Proof.
  intros Hbad. run_act.
  destruct (get res "data") as [d|e] eqn:Hd; run_act.
  - destruct (get d "user") as [u|e] eqn:Hu; run_act.
    + destruct (Hbad d u); done.
    + apply get_throws_TypeError in Hu as ->. reflexivity.
  - apply get_throws_TypeError in Hd as ->. reflexivity.
Qed.

Lemma loadUser_Rejected reason message :
  failure_message (Rejection reason) "Authentication failed" = Normal message →
  loadUser (Rejected reason)
  = mkAct [Request "GET" "/api/auth/me" NoData;
           Dispatch (event AUTH_ACTIONS.AUTH_ERROR message)]
          (Normal tt).
Proof. intros Hm. run_act. rewrite Hm. reflexivity. Qed.

Lemma loadUser_Rejected_nullish reason :
  nullish reason = true →
  loadUser (Rejected reason)
  = mkAct [Request "GET" "/api/auth/me" NoData] (Throw TypeError).
Proof. destruct reason; try discriminate; reflexivity. Qed.

(** A response without a body: no response object, or no [data] in it. *)
Lemma no_body_malformed res :
  nullish res = true ∨ (∃ d, get res "data" = Normal d ∧ nullish d = true) →
  ∀ d u, get res "data" = Normal d → get d "user" = Normal u → False.
Proof.
  intros [Hn | (d0 & Hd0 & Hn)] d u Hd Hu.
  - apply get_Normal_present in Hd. congruence.
  - rewrite Hd0 in Hd. injection Hd as <-.
    apply get_Normal_present in Hu. congruence.
Qed.

(** However the request settles within axios's contract, [loadUser]
    dispatches one event on which the reducer returns with
    [loading = false]. *)
Lemma loadUser_ends_loading reply s ls :
  (∀ reason, reply = Rejected reason → nullish reason = false) →
  ∃ s' ls',
    reduceAll (dispatched (effects (loadUser reply))) s ls = Normal (s', ls')
    ∧ loading s' = VBool false.
Proof.
  intros Herr. destruct reply as [res | reason].
  - destruct (get res "data") as [d|e] eqn:Hd.
    + destruct (get d "user") as [u|e] eqn:Hu.
      * rewrite (loadUser_Fulfilled res d u Hd Hu).
        eexists _, _. split; reflexivity.
      * rewrite (loadUser_malformed res) by (intros d' u' Hd' Hu'; congruence).
        eexists _, _. split; reflexivity.
    + rewrite (loadUser_malformed res) by (intros d' u' Hd' Hu'; congruence).
      eexists _, _. split; reflexivity.
  - destruct (failure_message_Rejection reason "Authentication failed"
                (Herr _ eq_refl)) as (m & Hm & _).
    rewrite (loadUser_Rejected reason m Hm).
    eexists _, _. split; reflexivity.
Qed.

(** X9.  [loadUser] makes the one request [GET /api/auth/me] and then
    dispatches exactly one event, without throwing.  Answered with a body,
    the event is [USER_LOADED] with [res.data.user], and reducing it from any
    state gives that user, authenticated, not loading, with token, error and
    storage as they were.  Answered with no response object or no body, the
    event is [AUTH_ERROR] with ["Authentication failed"]; rejected with an
    error object, it is [AUTH_ERROR] with the truthy [response.data.message]
    of the error or else ["Authentication failed"]; reducing it clears user,
    token and the stored token and ends not loading. *)
Theorem loadUser_dispatches_once (reply : settled) (s : AuthState) (ls : Storage) :
  (∀ res d u, reply = Fulfilled res →
     get res "data" = Normal d →
     get d "user" = Normal u →
     loadUser reply
     = mkAct [Request "GET" "/api/auth/me" NoData;
              Dispatch (event AUTH_ACTIONS.USER_LOADED u)]
             (Normal tt)
     ∧ reduceAll (dispatched (effects (loadUser reply))) s ls
       = Normal (mkAuthState u (token s) (VBool true) (VBool false) (error s), ls))
  ∧ (∀ res, reply = Fulfilled res →
     nullish res = true ∨ (∃ d, get res "data" = Normal d ∧ nullish d = true) →
     loadUser reply
     = mkAct [Request "GET" "/api/auth/me" NoData;
              Dispatch (event AUTH_ACTIONS.AUTH_ERROR (VStr "Authentication failed"))]
             (Normal tt)
     ∧ reduceAll (dispatched (effects (loadUser reply))) s ls
       = Normal (mkAuthState VNull VNull (VBool false) (VBool false)
                   (VStr "Authentication failed"), removeItem "token" ls))
  ∧ (∀ reason, reply = Rejected reason →
     nullish reason = false →
     ∃ m,
       loadUser reply
       = mkAct [Request "GET" "/api/auth/me" NoData;
                Dispatch (event AUTH_ACTIONS.AUTH_ERROR m)]
               (Normal tt)
       ∧ reduceAll (dispatched (effects (loadUser reply))) s ls
         = Normal (mkAuthState VNull VNull (VBool false) (VBool false) m,
                   removeItem "token" ls)
       ∧ (∀ r d x,
            get reason "response" = Normal r →
            get r "data" = Normal d →
            get d "message" = Normal x →
            to_boolean x = true →
            m = x)
       ∧ (m = VStr "Authentication failed"
          ∨ ∃ r d,
              get reason "response" = Normal r
              ∧ get r "data" = Normal d
              ∧ get d "message" = Normal m
              ∧ to_boolean m = true)).
Proof.
  split; [|split].
  - intros res d u -> Hd Hu. rewrite (loadUser_Fulfilled res d u Hd Hu).
    split; reflexivity.
  - intros res -> Hno.
    rewrite (loadUser_malformed res (no_body_malformed res Hno)).
    split; reflexivity.
  - intros reason -> Hn.
    destruct (failure_message_Rejection reason "Authentication failed" Hn)
      as (m & Hm & Htruthy & Hor).
    exists m. rewrite (loadUser_Rejected reason m Hm).
    split; [reflexivity|]. split; [reflexivity|]. split; assumption.
Qed.

Lemma loadUser_dispatches_once_witness :
  (Rejected (axios_error "jwt expired") = Rejected (axios_error "jwt expired")
   ∧ nullish (axios_error "jwt expired") = false)
  ∧ ∃ m,
      loadUser (Rejected (axios_error "jwt expired"))
      = mkAct [Request "GET" "/api/auth/me" NoData;
               Dispatch (event AUTH_ACTIONS.AUTH_ERROR m)]
              (Normal tt)
      ∧ reduceAll (dispatched (effects (loadUser (Rejected (axios_error "jwt expired")))))
          (initialState stored_token) stored_token
        = Normal (mkAuthState VNull VNull (VBool false) (VBool false) m,
                  removeItem "token" stored_token)
      ∧ m = VStr "jwt expired".
Proof.
  split; [split; reflexivity|].
  destruct (proj2 (proj2 (loadUser_dispatches_once (Rejected (axios_error "jwt expired"))
                            (initialState stored_token) stored_token))
              (axios_error "jwt expired") eq_refl eq_refl)
    as (m & Hl & Hred & Htruthy & _).
  exists m. split; [exact Hl|]. split; [exact Hred|].
  exact (Htruthy _ _ (VStr "jwt expired") eq_refl eq_refl eq_refl eq_refl).
Defined.

(** X10.  The effect that loads the user on start and on a change of the
    token, in any state.  When [state.token] is falsy (absent, or the empty
    string) it makes no request and dispatches only [SET_LOADING(false)],
    which sets [loading] to [false] and keeps every other field and the
    storage.  When it is truthy the effect is [loadUser]; once its request
    has settled, fulfilled or rejected with an error object, the reducer
    returns on what was dispatched with [loading = false].  A rejection with
    [null] or [undefined] throws in the handler of [loadUser] and dispatches
    nothing, so that [loading] is not reset. *)
Theorem loadUserOnTokenChange_ends_loading (reply : settled) (s : AuthState)
    (ls : Storage) :
  (to_boolean (token s) = false →
   loadUserOnTokenChange s reply
   = mkAct [Dispatch (event AUTH_ACTIONS.SET_LOADING (VBool false))] (Normal tt)
   ∧ reduceAll (dispatched (effects (loadUserOnTokenChange s reply))) s ls
     = Normal (mkAuthState (user s) (token s) (isAuthenticated s)
                 (VBool false) (error s), ls))
  ∧ (to_boolean (token s) = true →
     loadUserOnTokenChange s reply = loadUser reply)
  ∧ (to_boolean (token s) = true →
     (∀ reason, reply = Rejected reason → nullish reason = false) →
     ∃ s' ls',
       reduceAll (dispatched (effects (loadUserOnTokenChange s reply))) s ls
       = Normal (s', ls')
       ∧ loading s' = VBool false)
  ∧ (to_boolean (token s) = true →
     ∀ reason, reply = Rejected reason →
     nullish reason = true →
     loadUserOnTokenChange s reply
     = mkAct [Request "GET" "/api/auth/me" NoData] (Throw TypeError)
     ∧ reduceAll (dispatched (effects (loadUserOnTokenChange s reply))) s ls
       = Normal (s, ls)).
Proof.
  unfold loadUserOnTokenChange. repeat apply conj.
  - intros ->. split; reflexivity.
  - intros ->. reflexivity.
  - intros -> Herr. by apply loadUser_ends_loading.
  - intros -> reason -> Hn. rewrite (loadUser_Rejected_nullish reason Hn).
    split; reflexivity.
Qed.

Lemma loadUserOnTokenChange_ends_loading_witness :
  (to_boolean (token (initialState stored_token)) = true
   ∧ (∀ reason, Rejected (axios_error "jwt expired") = Rejected reason →
                nullish reason = false))
  ∧ ∃ s' ls',
      reduceAll (dispatched (effects (loadUserOnTokenChange (initialState stored_token)
                                        (Rejected (axios_error "jwt expired")))))
        (initialState stored_token) stored_token = Normal (s', ls')
      ∧ loading s' = VBool false.
Proof.
  assert (∀ reason, Rejected (axios_error "jwt expired") = Rejected reason →
                    nullish reason = false) as H
    by (intros reason [= <-]; reflexivity).
  assert (to_boolean (token (initialState stored_token)) = true) as Ht
    by reflexivity.
  split; [split; [exact Ht | exact H]|].
  exact (proj1 (proj2 (proj2
           (loadUserOnTokenChange_ends_loading (Rejected (axios_error "jwt expired"))
              (initialState stored_token) stored_token))) Ht H).
Defined.

(** ** Queries on the states the store reaches *)

(** X11.  A body without a user breaks [canAccess].  When [/me] answers with
    a body whose [user] is [null] or missing, [loadUser] dispatches
    [USER_LOADED] with it; from any state the reducer then gives an
    authenticated state without a user, on which [canAccess] throws a
    [TypeError] for every list of roles, while [hasRole] returns the absent
    user. *)
Theorem loaded_without_user_breaks_canAccess (res d u role : value)
    (allowedRoles : list value) (s : AuthState) (ls : Storage) :
  get res "data" = Normal d →
  get d "user" = Normal u →
  nullish u = true →
  ∃ s',
    reduceAll (dispatched (effects (loadUser (Fulfilled res)))) s ls = Normal (s', ls)
    ∧ isAuthenticated s' = VBool true
    ∧ canAccess s' allowedRoles = Throw TypeError
    ∧ hasRole s' role = Normal u.
Proof.
  intros Hd Hu Hn. rewrite (loadUser_Fulfilled res d u Hd Hu).
  eexists. split; [reflexivity|]. split; [reflexivity|].
  destruct u; try discriminate; split; reflexivity.
Qed.

Lemma loaded_without_user_breaks_canAccess_witness :
  (get (response (VObj 7 [])) "data" = Normal (VObj 7 [])
   ∧ get (VObj 7 []) "user" = Normal VUndefined
   ∧ nullish VUndefined = true)
  ∧ ∃ s',
      reduceAll (dispatched (effects (loadUser (Fulfilled (response (VObj 7 []))))))
        (initialState stored_token) stored_token = Normal (s', stored_token)
      ∧ isAuthenticated s' = VBool true
      ∧ canAccess s' [VStr "admin"] = Throw TypeError
      ∧ hasRole s' (VStr "admin") = Normal VUndefined.
Proof.
  split; [repeat split|].
  exact (loaded_without_user_breaks_canAccess (response (VObj 7 [])) (VObj 7 [])
           VUndefined (VStr "admin") [VStr "admin"] (initialState stored_token)
           stored_token eq_refl eq_refl eq_refl).
Defined.

Lemma canAccess_returns s allowedRoles :
  user_iff_authenticated s →
  ∃ b, canAccess s allowedRoles = Normal (VBool b).
Proof.
  unfold canAccess. intros [[-> Hu] | [-> _]]; simpl; [|eauto].
  destruct (get_present (user s) "userType" Hu) as [ut ->]. simpl. eauto.
Qed.

(** X12.  [canAccess] does not throw on the states the store reaches
    through events that carry the payloads their cases expect (a success
    payload with a string token and a present user, [USER_LOADED] with a
    present user): from the initial state, every such sequence is reduced
    without a throw, and on the resulting state [canAccess] returns a boolean
    for every list of roles. *)
Theorem canAccess_returns_after_well_formed (ls : Storage) (actions : list Action)
    (allowedRoles : list value) :
  forallb well_formed actions = true →
  ∃ s' ls' b,
    reduceAll actions (initialState ls) ls = Normal (s', ls')
    ∧ canAccess s' allowedRoles = Normal (VBool b).
Proof.
  intros Hwf.
  destruct (reduceAll_invariant actions (initialState ls) ls
              (initialState_invariant ls) Hwf) as (s' & ls' & E & H').
  destruct (canAccess_returns s' allowedRoles H') as [b Hb].
  exists s', ls', b. auto.
Qed.

Lemma canAccess_returns_after_well_formed_witness :
  forallb well_formed sample_session = true
  ∧ ∃ s' ls' b,
      reduceAll sample_session (initialState ∅) ∅ = Normal (s', ls')
      ∧ canAccess s' [VStr "staff"] = Normal (VBool b).
Proof.
  split; [reflexivity|].
  apply (canAccess_returns_after_well_formed ∅ sample_session [VStr "staff"]).
  reflexivity.
Defined.

(** X13.  [hasRole] never throws, in any state and for any role: the guard
    on [state.user] protects the read of [userType].  Its result is the
    boolean [true] or a falsy value. *)
Theorem hasRole_never_throws (s : AuthState) (role : value) :
  ∃ v, hasRole s role = Normal v ∧ (v = VBool true ∨ to_boolean v = false).
Proof.
  unfold hasRole. destruct (to_boolean (user s)) eqn:Hu.
  - assert (nullish (user s) = false) as Hn
      by (destruct (user s); try discriminate; done).
    destruct (get_present (user s) "userType" Hn) as [ut ->]. simpl.
    eexists. split; [reflexivity|].
    destruct (strict_equals ut role); auto.
  - exists (user s). auto.
Qed.

Lemma hasRole_VStr_true s r :
  hasRole s (VStr r) = Normal (VBool true)
  ↔ to_boolean (user s) = true ∧ get (user s) "userType" = Normal (VStr r).
Proof.
  unfold hasRole. destruct (to_boolean (user s)) eqn:Hu.
  - assert (nullish (user s) = false) as Hn
      by (destruct (user s); try discriminate; done).
    destruct (get_present (user s) "userType" Hn) as [ut Hut]. rewrite Hut. simpl.
    split.
    + intros [= E]. apply strict_equals_VStr in E. subst. auto.
    + intros [_ [= ->]]. simpl. by rewrite String.eqb_refl.
  - simpl. split.
    + intros [= E]. rewrite E in Hu. discriminate.
    + intros [? _]. discriminate.
Qed.

Lemma includes_VStr roles ut :
  includes (VStr <$> roles) ut = true ↔ ∃ r, r ∈ roles ∧ ut = VStr r.
Proof.
  rewrite includes_spec. split.
  - intros (y & Hy & E). apply list_elem_of_fmap in Hy as (r & -> & Hr).
    exists r. split; [done|].
    destruct ut; simpl in E; try discriminate.
    apply String.eqb_eq in E. by subst.
  - intros (r & Hr & ->). exists (VStr r). split.
    + apply list_elem_of_fmap. eauto.
    + simpl. apply String.eqb_refl.
Qed.

(** X14.  [canAccess] on role strings is [hasRole] for one of them, behind
    the authentication guard.  In every state, if [canAccess] returns [true]
    for a list of role strings then [hasRole] returns [true] for one of them;
    while [isAuthenticated] is truthy the converse holds too. *)
Theorem canAccess_iff_some_hasRole (s : AuthState) (roles : list string) :
  (canAccess s (VStr <$> roles) = Normal (VBool true) →
   ∃ r, r ∈ roles ∧ hasRole s (VStr r) = Normal (VBool true))
  ∧ (to_boolean (isAuthenticated s) = true →
     (∃ r, r ∈ roles ∧ hasRole s (VStr r) = Normal (VBool true)) →
     canAccess s (VStr <$> roles) = Normal (VBool true)).
Proof.
  unfold canAccess. split.
  - destruct (to_boolean (isAuthenticated s)); simpl; [|discriminate].
    destruct (get (user s) "userType") as [ut|] eqn:Hut; simpl; [|discriminate].
    intros [= E]. apply includes_VStr in E as (r & Hr & ->).
    exists r. split; [done|]. apply hasRole_VStr_true. split; [|done].
    destruct (user s) as [| |b|str|ref props]; simpl in *; try discriminate; done.
  - intros -> (r & Hr & H). apply hasRole_VStr_true in H as [_ Hut].
    simpl. rewrite Hut. simpl. f_equal. f_equal.
    apply includes_VStr. eauto.
Qed.

Lemma canAccess_iff_some_hasRole_witness :
  (to_boolean (VBool true) = true
   ∧ ∃ r, r ∈ ["staff"; "admin"]
          ∧ hasRole (mkAuthState admin (VStr "t1") (VBool true) (VBool false) VNull)
              (VStr r) = Normal (VBool true))
  ∧ canAccess (mkAuthState admin (VStr "t1") (VBool true) (VBool false) VNull)
      (VStr <$> ["staff"; "admin"]) = Normal (VBool true).
Proof.
  assert (∃ r, r ∈ ["staff"; "admin"]
               ∧ hasRole (mkAuthState admin (VStr "t1") (VBool true) (VBool false) VNull)
                   (VStr r) = Normal (VBool true)) as H.
  { exists "admin". split; [|reflexivity].
    apply list_elem_of_further, list_elem_of_here. }
  split; [split; [reflexivity | exact H]|].
  exact (proj2 (canAccess_iff_some_hasRole
                  (mkAuthState admin (VStr "t1") (VBool true) (VBool false) VNull)
                  ["staff"; "admin"]) eq_refl H).
Defined.

(** ** Profile and password *)

(** X15.  [changePassword] never dispatches, however the request settles,
    so it cannot change the state.  Any fulfilled reply, whatever it
    carries, counts as success: one success notification and
    [{success: true}].  A rejection with an error object gives one error
    notification and [{success: false, message}], the message being
    [response.data.message] of the error when the error carries one and it
    is truthy, and ["Password change failed"] in every other case. *)
Theorem changePassword_never_dispatches (passwordData : value) (reply : settled) :
  dispatched (effects (changePassword passwordData reply)) = []
  ∧ (∀ res, reply = Fulfilled res →
     changePassword passwordData reply
     = mkAct [Request "PUT" "/api/auth/password" (Data passwordData);
              ToastSuccess (VStr "Password changed successfully!")]
             (Normal Success))
  ∧ (∀ reason, reply = Rejected reason → nullish reason = false →
     ∃ message,
       changePassword passwordData reply
       = mkAct [Request "PUT" "/api/auth/password" (Data passwordData);
                ToastError message]
               (Normal (Failure message))
       ∧ (∀ r d m,
            get reason "response" = Normal r →
            get r "data" = Normal d →
            get d "message" = Normal m →
            to_boolean m = true →
            message = m)
       ∧ (message = VStr "Password change failed"
          ∨ ∃ r d,
              get reason "response" = Normal r
              ∧ get r "data" = Normal d
              ∧ get d "message" = Normal message
              ∧ to_boolean message = true)).
Proof.
  split; [|split].
  - destruct reply as [res | reason]; [reflexivity|].
    run_more. destruct (failure_message (Rejection reason) "Password change failed");
      reflexivity.
  - intros res ->. reflexivity.
  - intros reason -> Hn.
    destruct (failure_message_Rejection reason "Password change failed" Hn)
      as (message & Hm & Htruthy & Hor).
    exists message. split; [|split; assumption].
    run_more. rewrite Hm. reflexivity.
Qed.

Lemma changePassword_never_dispatches_witness :
  (Rejected (axios_error "wrong password") = Rejected (axios_error "wrong password")
   ∧ nullish (axios_error "wrong password") = false)
  ∧ ∃ message,
      changePassword (VObj 8 [("newPassword", VStr "pw2")])
        (Rejected (axios_error "wrong password"))
      = mkAct [Request "PUT" "/api/auth/password"
                 (Data (VObj 8 [("newPassword", VStr "pw2")]));
               ToastError message]
              (Normal (Failure message))
      ∧ (∀ r d m,
           get (axios_error "wrong password") "response" = Normal r →
           get r "data" = Normal d →
           get d "message" = Normal m →
           to_boolean m = true →
           message = m)
      ∧ (message = VStr "Password change failed"
         ∨ ∃ r d,
             get (axios_error "wrong password") "response" = Normal r
             ∧ get r "data" = Normal d
             ∧ get d "message" = Normal message
             ∧ to_boolean message = true).
Proof.
  split; [split; reflexivity|].
  exact (proj2 (proj2 (changePassword_never_dispatches
                         (VObj 8 [("newPassword", VStr "pw2")])
                         (Rejected (axios_error "wrong password"))))
           (axios_error "wrong password") eq_refl eq_refl).
Defined.

Lemma updateProfile_malformed profileData res :
  (∀ d u, get res "data" = Normal d → get d "user" = Normal u → False) →
  updateProfile profileData (Fulfilled res)
  = mkAct [Request "PUT" "/api/auth/profile" (Data profileData);
           ToastError (VStr "Profile update failed")]
          (Normal (Failure (VStr "Profile update failed"))).
Proof.
  intros Hbad. run_act.
  destruct (get res "data") as [d|e] eqn:Hd; run_act.
  - destruct (get d "user") as [u|e] eqn:Hu; run_act.
    + destruct (Hbad d u); done.
    + apply get_throws_TypeError in Hu as ->. reflexivity.
  - apply get_throws_TypeError in Hd as ->. reflexivity.
Qed.

Lemma updateProfile_Rejected profileData reason message :
  failure_message (Rejection reason) "Profile update failed" = Normal message →
  updateProfile profileData (Rejected reason)
  = mkAct [Request "PUT" "/api/auth/profile" (Data profileData);
           ToastError message]
          (Normal (Failure message)).
Proof. intros Hm. run_act. rewrite Hm. reflexivity. Qed.

(** X16.  [updateProfile] dispatches exactly when it reports success.  When
    a rejection carries an error object it never throws, and either it
    returns [{success: true}] having dispatched the single event
    [USER_LOADED] with [res.data.user], or it returns
    [{success: false, message}] having dispatched nothing, so that the state
    and the storage stay as they were; a response without a body is such a
    failure, with the message ["Profile update failed"]. *)
Theorem updateProfile_dispatches_iff_success (profileData : value) (reply : settled)
    (s : AuthState) (ls : Storage) :
  (∀ reason, reply = Rejected reason → nullish reason = false) →
  (∃ res d u,
     reply = Fulfilled res
     ∧ get res "data" = Normal d
     ∧ get d "user" = Normal u
     ∧ result (updateProfile profileData reply) = Normal Success
     ∧ dispatched (effects (updateProfile profileData reply))
       = [event AUTH_ACTIONS.USER_LOADED u])
  ∨ (∃ m,
       result (updateProfile profileData reply) = Normal (Failure m)
       ∧ dispatched (effects (updateProfile profileData reply)) = []
       ∧ reduceAll (dispatched (effects (updateProfile profileData reply))) s ls
         = Normal (s, ls)
       ∧ (∀ res, reply = Fulfilled res → m = VStr "Profile update failed")).
Proof.
  intros Herr. destruct reply as [res | reason].
  - destruct (get res "data") as [d|e] eqn:Hd.
    + destruct (get d "user") as [u|e] eqn:Hu.
      * left. exists res, d, u.
        rewrite (updateProfile_Fulfilled profileData res d u Hd Hu).
        repeat split; done.
      * right. rewrite (updateProfile_malformed profileData res)
          by (intros d' u' Hd' Hu'; congruence).
        eexists. repeat split.
    + right. rewrite (updateProfile_malformed profileData res)
        by (intros d' u' Hd' Hu'; congruence).
      eexists. repeat split.
  - right.
    destruct (failure_message_Rejection reason "Profile update failed"
                (Herr _ eq_refl)) as (m & Hm & _).
    rewrite (updateProfile_Rejected profileData reason m Hm).
    exists m. repeat split. intros res [=].
Qed.

Lemma updateProfile_dispatches_iff_success_witness :
  (∀ reason, Fulfilled (VObj 6 []) = Rejected reason → nullish reason = false)
  ∧ result (updateProfile (VObj 8 [("name", VStr "Ann")]) (Fulfilled (VObj 6 [])))
    = Normal (Failure (VStr "Profile update failed"))
  ∧ ((∃ res d u,
        Fulfilled (VObj 6 []) = Fulfilled res
        ∧ get res "data" = Normal d
        ∧ get d "user" = Normal u
        ∧ result (updateProfile (VObj 8 [("name", VStr "Ann")]) (Fulfilled (VObj 6 [])))
          = Normal Success
        ∧ dispatched (effects (updateProfile (VObj 8 [("name", VStr "Ann")])
                                 (Fulfilled (VObj 6 []))))
          = [event AUTH_ACTIONS.USER_LOADED u])
     ∨ (∃ m,
          result (updateProfile (VObj 8 [("name", VStr "Ann")]) (Fulfilled (VObj 6 [])))
          = Normal (Failure m)
          ∧ dispatched (effects (updateProfile (VObj 8 [("name", VStr "Ann")])
                                   (Fulfilled (VObj 6 []))))
            = []
          ∧ reduceAll (dispatched (effects (updateProfile (VObj 8 [("name", VStr "Ann")])
                                              (Fulfilled (VObj 6 [])))))
              (initialState stored_token) stored_token
            = Normal (initialState stored_token, stored_token)
          ∧ (∀ res, Fulfilled (VObj 6 []) = Fulfilled res →
                    m = VStr "Profile update failed"))).
Proof.
  assert (∀ reason, Fulfilled (VObj 6 []) = Rejected reason → nullish reason = false)
    as H by (intros reason [=]).
  split; [exact H|]. split; [reflexivity|].
  exact (updateProfile_dispatches_iff_success (VObj 8 [("name", VStr "Ann")])
           (Fulfilled (VObj 6 [])) (initialState stored_token) stored_token H).
Defined.

(** ** The bearer header *)

Lemma configureAxiosDefaults_falsy s (h : Headers) :
  to_boolean (token s) = false →
  configureAxiosDefaults s h = Normal (delete "Authorization" h).
Proof. unfold configureAxiosDefaults. by intros ->. Qed.

Lemma configureAxiosDefaults_truthy s (h : Headers) str :
  to_boolean (token s) = true →
  to_string (token s) = Normal str →
  configureAxiosDefaults s h = Normal (<["Authorization" := "Bearer " ++ str]> h).
Proof. unfold configureAxiosDefaults. by intros -> ->. Qed.

(** X17.  The effect that configures axios decides the [Authorization]
    header from the token alone.  When [state.token] is falsy the header is
    deleted; when it is truthy and ToString gives [str] (a string, [true], an
    object without an own [toString]) the header is set to
    ["Bearer " + str], whatever it was; when it is an object with an own
    [toString] property the template literal throws a [TypeError] and no
    header is written.  When the effect returns, the other default headers
    are kept, and running it again for a state with the same token changes
    nothing, which is what its dependency list relies on. *)
Theorem configureAxiosDefaults_spec (s : AuthState) (h : Headers) :
  (to_boolean (token s) = false →
   configureAxiosDefaults s h = Normal (delete "Authorization" h))
  ∧ (∀ str, to_boolean (token s) = true →
       to_string (token s) = Normal str →
       configureAxiosDefaults s h
       = Normal (<["Authorization" := "Bearer " ++ str]> h))
  ∧ (∀ r props w,
       token s = VObj r props →
       own_property "toString" props = Some w →
       configureAxiosDefaults s h = Throw TypeError)
  ∧ (∀ h', configureAxiosDefaults s h = Normal h' →
       (∀ k, k ≠ "Authorization" → h' !! k = h !! k)
       ∧ (is_Some (h' !! "Authorization") ↔ to_boolean (token s) = true)
       ∧ (∀ s', token s' = token s → configureAxiosDefaults s' h' = Normal h')).
Proof.
  repeat apply conj.
  - apply configureAxiosDefaults_falsy.
  - intros str. apply configureAxiosDefaults_truthy.
  - intros r props w E Hw. unfold configureAxiosDefaults. rewrite E. simpl.
    by rewrite Hw.
  - intros h' H. unfold configureAxiosDefaults in *.
    destruct (to_boolean (token s)) eqn:Ht.
    + destruct (to_string (token s)) as [str|] eqn:Es; [|discriminate].
      simpl in H. injection H as <-. split; [|split].
      * intros k Hk. by rewrite lookup_insert_ne.
      * rewrite lookup_insert_eq. split; eauto.
      * intros s' ->. rewrite Ht, Es. simpl. by rewrite insert_insert_eq.
    + simpl in H. injection H as <-. split; [|split].
      * intros k Hk. by rewrite lookup_delete_ne.
      * rewrite lookup_delete_eq. split; [intros [? ?]|]; discriminate.
      * intros s' ->. rewrite Ht. simpl. by rewrite delete_delete_eq.
Qed.

Lemma configureAxiosDefaults_spec_witness :
  (to_boolean (token (initialState stored_token)) = true
   ∧ to_string (token (initialState stored_token)) = Normal "abc")
  ∧ configureAxiosDefaults (initialState stored_token) {["Accept" := "application/json"]}
    = Normal (<["Authorization" := "Bearer " ++ "abc"]> {["Accept" := "application/json"]}).
Proof.
  split; [split; reflexivity|].
  exact (proj1 (proj2 (configureAxiosDefaults_spec (initialState stored_token)
                         {["Accept" := "application/json"]}))
           "abc" eq_refl eq_refl).
Defined.

(** X18.  The header follows the session.  After a failure event or a
    [LOGOUT], from any state, the effect removes the [Authorization] header
    and the stored token is gone.  After a success event whose token is a
    non-empty string, the header is ["Bearer " + token] and the storage holds
    the token.  After a success event whose token is falsy (missing, or the
    empty string) the state is authenticated and the header is removed. *)
Theorem header_follows_session (s : AuthState) (p : value) (ls : Storage) (h : Headers) :
  (∀ t, t ∈ [AUTH_ACTIONS.LOGIN_FAIL; AUTH_ACTIONS.REGISTER_FAIL;
             AUTH_ACTIONS.AUTH_ERROR; AUTH_ACTIONS.LOGOUT] →
     ∃ s' ls' h',
       authReducer s (event t p) ls = Normal (s', ls')
       ∧ configureAxiosDefaults s' h = Normal h'
       ∧ h' !! "Authorization" = None
       ∧ ls' !! "token" = None)
  ∧ (∀ t tok, t ∈ [AUTH_ACTIONS.LOGIN_SUCCESS; AUTH_ACTIONS.REGISTER_SUCCESS] →
     get p "token" = Normal (VStr tok) →
     tok ≠ "" →
     ∃ s' ls' h',
       authReducer s (event t p) ls = Normal (s', ls')
       ∧ configureAxiosDefaults s' h = Normal h'
       ∧ h' !! "Authorization" = Some ("Bearer " ++ tok)
       ∧ ls' !! "token" = Some tok)
  ∧ (∀ t tok, t ∈ [AUTH_ACTIONS.LOGIN_SUCCESS; AUTH_ACTIONS.REGISTER_SUCCESS] →
     get p "token" = Normal tok →
     to_boolean tok = false →
     ∃ s' ls' h',
       authReducer s (event t p) ls = Normal (s', ls')
       ∧ isAuthenticated s' = VBool true
       ∧ configureAxiosDefaults s' h = Normal h'
       ∧ h' !! "Authorization" = None).
Proof.
  split; [|split].
  - intros t. rewrite !elem_of_cons, elem_of_nil.
    intros [-> | [-> | [-> | [-> | []]]]]; eexists _, _, _;
      (split; [reflexivity|]); (split; [reflexivity|]);
      (split; apply lookup_delete_eq).
  - intros t tok Ht Htok Hne.
    pose proof (get_Normal_present p "token" _ Htok) as Hp.
    destruct (get_present p "user" Hp) as [u Hu].
    assert (to_boolean (VStr tok) = true) as Htruthy.
    { simpl. apply negb_true_iff. by apply String.eqb_neq. }
    eexists _, _, _.
    split; [by apply (authReducer_success s p ls t (VStr tok) tok u)|].
    split; [by apply (configureAxiosDefaults_truthy _ h tok)|].
    split; apply lookup_insert_eq.
  - intros t tok Ht Htok Hf.
    pose proof (get_Normal_present p "token" _ Htok) as Hp.
    destruct (get_present p "user" Hp) as [u Hu].
    assert (∃ str, to_string tok = Normal str) as [str Hstr].
    { destruct tok as [| |[]|x|]; simpl in *; try discriminate; eauto. }
    eexists _, _, _.
    split; [by apply (authReducer_success s p ls t tok str u)|].
    split; [reflexivity|].
    split; [by apply (configureAxiosDefaults_falsy _ h)|].
    apply lookup_delete_eq.
Qed.

Lemma header_follows_session_witness :
  (AUTH_ACTIONS.LOGIN_SUCCESS ∈ [AUTH_ACTIONS.LOGIN_SUCCESS; AUTH_ACTIONS.REGISTER_SUCCESS]
   ∧ get session_body "token" = Normal (VStr "t1")
   ∧ "t1" ≠ "")
  ∧ ∃ s' ls' h',
      authReducer (initialState ∅) (event AUTH_ACTIONS.LOGIN_SUCCESS session_body) ∅
      = Normal (s', ls')
      ∧ configureAxiosDefaults s' ∅ = Normal h'
      ∧ h' !! "Authorization" = Some ("Bearer " ++ "t1")
      ∧ ls' !! "token" = Some "t1".
Proof.
  assert (AUTH_ACTIONS.LOGIN_SUCCESS
            ∈ [AUTH_ACTIONS.LOGIN_SUCCESS; AUTH_ACTIONS.REGISTER_SUCCESS]) as Hin
    by apply list_elem_of_here.
  assert ("t1" ≠ "") as Hne by discriminate.
  split; [split; [exact Hin | split; [reflexivity | exact Hne]]|].
  exact (proj1 (proj2 (header_follows_session (initialState ∅) session_body ∅ ∅))
           AUTH_ACTIONS.LOGIN_SUCCESS "t1" Hin eq_refl Hne).
Defined.

(** ** A login and the reload of the user that follows it *)

(** X19.  A login is confirmed or undone by the request it triggers.  After
    a [login] answered with a body whose token is a non-empty string, the
    state holds that token and user and the token is stored, so the effect
    on the token, when it runs, is [loadUser].  If its request is answered
    with a body, the state stays authenticated with the same token and takes
    the user of that answer, the storage unchanged; if it is answered with
    no response object or no body, or rejected with an error object, the
    session is dropped: not authenticated, no user, no token, the stored
    token removed, and [error] holds ["Authentication failed"] or the truthy
    [response.data.message] of the error. *)
Theorem login_then_loadUser (email password res d u : value) (tok : string)
    (reply : settled) (s : AuthState) (ls : Storage) :
  get res "data" = Normal d →
  get d "token" = Normal (VStr tok) →
  get d "user" = Normal u →
  tok ≠ "" →
  reduceAll (dispatched (effects (login email password (Fulfilled res)))) s ls
  = Normal (mkAuthState u (VStr tok) (VBool true) (VBool false) VNull,
            <["token" := tok]> ls)
  ∧ loadUserOnTokenChange
      (mkAuthState u (VStr tok) (VBool true) (VBool false) VNull) reply
    = loadUser reply
  ∧ (∀ res2 d2 u2, reply = Fulfilled res2 →
     get res2 "data" = Normal d2 →
     get d2 "user" = Normal u2 →
     reduceAll (dispatched (effects (loadUser reply)))
       (mkAuthState u (VStr tok) (VBool true) (VBool false) VNull)
       (<["token" := tok]> ls)
     = Normal (mkAuthState u2 (VStr tok) (VBool true) (VBool false) VNull,
               <["token" := tok]> ls)
     ∧ getItem "token" (<["token" := tok]> ls) = VStr tok)
  ∧ (∀ res2, reply = Fulfilled res2 →
     nullish res2 = true ∨ (∃ d2, get res2 "data" = Normal d2 ∧ nullish d2 = true) →
     reduceAll (dispatched (effects (loadUser reply)))
       (mkAuthState u (VStr tok) (VBool true) (VBool false) VNull)
       (<["token" := tok]> ls)
     = Normal (mkAuthState VNull VNull (VBool false) (VBool false)
                 (VStr "Authentication failed"),
               removeItem "token" (<["token" := tok]> ls))
     ∧ getItem "token" (removeItem "token" (<["token" := tok]> ls)) = VNull)
  ∧ (∀ reason, reply = Rejected reason →
     nullish reason = false →
     ∃ m,
       reduceAll (dispatched (effects (loadUser reply)))
         (mkAuthState u (VStr tok) (VBool true) (VBool false) VNull)
         (<["token" := tok]> ls)
       = Normal (mkAuthState VNull VNull (VBool false) (VBool false) m,
                 removeItem "token" (<["token" := tok]> ls))
       ∧ getItem "token" (removeItem "token" (<["token" := tok]> ls)) = VNull
       ∧ (∀ r dd x,
            get reason "response" = Normal r →
            get r "data" = Normal dd →
            get dd "message" = Normal x →
            to_boolean x = true →
            m = x)
       ∧ (m = VStr "Authentication failed"
          ∨ ∃ r dd,
              get reason "response" = Normal r
              ∧ get r "data" = Normal dd
              ∧ get dd "message" = Normal m
              ∧ to_boolean m = true)).
Proof.
  intros Hd Htok Hu Hne. split; [|split; [|split; [|split]]].
  - rewrite (login_Fulfilled email password res d u Hd Hu).
    apply (reduce_success_after AUTH_ACTIONS.LOGIN_SUCCESS (VBool true) d
             (VStr tok) tok u); [apply list_elem_of_here | done | done | done].
  - unfold loadUserOnTokenChange. simpl.
    assert (String.eqb tok "" = false) as -> by by apply String.eqb_neq.
    reflexivity.
  - intros res2 d2 u2 -> Hd2 Hu2. rewrite (loadUser_Fulfilled res2 d2 u2 Hd2 Hu2).
    split; [reflexivity | apply getItem_insert].
  - intros res2 -> Hno.
    rewrite (loadUser_malformed res2 (no_body_malformed res2 Hno)).
    split; [reflexivity | apply getItem_removeItem].
  - intros reason -> Hn.
    destruct (failure_message_Rejection reason "Authentication failed" Hn)
      as (m & Hm & Htruthy & Hor).
    exists m. rewrite (loadUser_Rejected reason m Hm).
    split; [reflexivity|]. split; [apply getItem_removeItem|]. split; assumption.
Qed.

Lemma login_then_loadUser_witness :
  (get (response session_body) "data" = Normal session_body
   ∧ get session_body "token" = Normal (VStr "t1")
   ∧ get session_body "user" = Normal admin
   ∧ "t1" ≠ ""
   ∧ nullish (axios_error "jwt expired") = false)
  ∧ reduceAll (dispatched (effects (login (VStr "a@b.c") (VStr "pw")
                                      (Fulfilled (response session_body)))))
      (initialState ∅) ∅
    = Normal (mkAuthState admin (VStr "t1") (VBool true) (VBool false) VNull,
              <["token" := "t1"]> ∅)
  ∧ ∃ m,
      reduceAll (dispatched (effects (loadUser (Rejected (axios_error "jwt expired")))))
        (mkAuthState admin (VStr "t1") (VBool true) (VBool false) VNull)
        (<["token" := "t1"]> ∅)
      = Normal (mkAuthState VNull VNull (VBool false) (VBool false) m,
                removeItem "token" (<["token" := "t1"]> ∅))
      ∧ m = VStr "jwt expired".
Proof.
  assert ("t1" ≠ "") as Hne by discriminate.
  split; [repeat split; exact Hne|].
  pose (login_then_loadUser (VStr "a@b.c") (VStr "pw") (response session_body)
          session_body admin "t1" (Rejected (axios_error "jwt expired"))
          (initialState ∅) ∅ eq_refl eq_refl eq_refl Hne) as T.
  split; [exact (proj1 T)|].
  destruct (proj2 (proj2 (proj2 (proj2 T))) (axios_error "jwt expired") eq_refl eq_refl)
    as (m & Hred & _ & Htruthy & _).
  exists m. split; [exact Hred|].
  exact (Htruthy _ _ (VStr "jwt expired") eq_refl eq_refl eq_refl eq_refl).
Defined.
